(** * The Discord OAuth callback of app.py

    A shallow embedding of [src/app.py]: the Flask view functions
    [discord_callback] and [frontend_redirect], the Python primitives they
    rely on (truthiness, [int()], [str()], [dict.get], [in]) over the values
    that [Response.json()] produces, and the outbound calls
    ([requests.post], [requests.get], [auth.create_custom_token]) as events
    in a trace, answered by an explicit model of the outside world. *)

From Stdlib Require Import ZArith List String Ascii Bool Lia DecimalString.
Import ListNotations.
Local Open Scope string_scope.
Local Open Scope Z_scope.
Set Warnings "-register-all".

(** ** Python values

    [Response.json()] yields [None], booleans, numbers, strings, lists and
    dicts.  Numbers are integers here (the provider sends ids as strings; a
    fractional number is outside the model), of at most 4300 digits, as
    [json] reads them with [int].  A dict is the list of its items in
    insertion order, with distinct keys.  A [str] is the sequence of the
    bytes of its UTF-8 encoding. *)

Inductive json : Type :=
| JNull
| JBool (b : bool)
| JNum (z : Z)
| JStr (s : string)
| JArr (items : list json)
| JObj (fields : list (string * json)).

(** The exceptions that the code under study can meet on the values
    above.  [RequestException] stands for the class and all its subclasses
    ([ConnectionError], [Timeout], [HTTPError], requests'
    [JSONDecodeError]).  [OverflowError], which [int] raises on an infinite
    float, has no place here, fractional numbers being outside the model:
    no statement below lists the exceptions that can leave the callback. *)
Inductive pyexc : Type :=
| RequestException
| TypeError
| ValueError
| AttributeError.

Module Py.

(** [bool(v)]: the test behind [if v] and [not v]. *)
Definition truthy (v : json) : bool :=
  match v with
  | JNull => false
  | JBool b => b
  | JNum z => negb (z =? 0)
  | JStr s => negb (s =? "")%string
  | JArr l => match l with [] => false | _ :: _ => true end
  | JObj l => match l with [] => false | _ :: _ => true end
  end.

(** The same test on a value that is [None] or a [str]
    ([os.getenv], [request.args.get]). *)
Definition truthy_opt (o : option string) : bool :=
  match o with
  | None => false
  | Some s => negb (s =? "")%string
  end.

(** [str(n)] for an [int]. *)
Definition str_int (z : Z) : string := NilZero.string_of_int (Z.to_int z).

Definition hex_digit (n : N) : ascii :=
  if (n <? 10)%N then ascii_of_N (48 + n) else ascii_of_N (87 + n).

(** One character of [repr(s)], [q] being the quote chosen. *)
Definition repr_char (q c : ascii) : string :=
  let n := N_of_ascii c in
  if (c =? q)%char || (c =? "\")%char then String "\" (String c "")
  else if (n =? 9)%N then "\t"
  else if (n =? 10)%N then "\n"
  else if (n =? 13)%N then "\r"
  else if (n <? 32)%N || (n =? 127)%N
       then String "\" (String "x" (String (hex_digit (n / 16))
                                      (String (hex_digit (n mod 16)) "")))
  else String c "".

Fixpoint has_char (c : ascii) (s : string) : bool :=
  match s with
  | EmptyString => false
  | String d r => (c =? d)%char || has_char c r
  end.

Fixpoint repr_chars (q : ascii) (s : string) : string :=
  match s with
  | EmptyString => ""
  | String c r => repr_char q c ++ repr_chars q r
  end.

Definition dquote : ascii := ascii_of_N 34.
Definition squote : ascii := "'"%char.

(** [repr(s)] for a [str]: single quotes, unless the text has a single
    quote and no double quote.  Bytes above 127 are kept as they are (the
    printable non-ASCII characters; the others are outside the model). *)
Definition repr_str (s : string) : string :=
  let q := if has_char squote s && negb (has_char dquote s)
           then dquote else squote in
  String q (repr_chars q s ++ String q "").

(** [repr(v)]. *)
Fixpoint repr (v : json) : string :=
  match v with
  | JNull => "None"
  | JBool true => "True"
  | JBool false => "False"
  | JNum z => str_int z
  | JStr s => repr_str s
  | JArr l =>
      "[" ++ (fix items (l : list json) : string :=
                match l with
                | [] => ""
                | x :: r =>
                    match r with
                    | [] => repr x
                    | _ :: _ => repr x ++ ", " ++ items r
                    end
                end) l ++ "]"
  | JObj l =>
      "{" ++ (fix items (l : list (string * json)) : string :=
                match l with
                | [] => ""
                | (k, x) :: r =>
                    match r with
                    | [] => repr_str k ++ ": " ++ repr x
                    | _ :: _ => repr_str k ++ ": " ++ repr x ++ ", " ++ items r
                    end
                end) l ++ "}"
  end.

(** [str(v)], which an f-string applies to each interpolated value. *)
Definition str (v : json) : string :=
  match v with
  | JStr s => s
  | _ => repr v
  end.

(** [str(v)] for a value that is [None] or a [str]. *)
Definition str_opt (o : option string) : string :=
  match o with
  | None => "None"
  | Some s => s
  end.

(** *** [int(s)] for a [str]

    Surrounding white space is dropped, a sign may come first, and the
    digits may be grouped by single underscores.  Only the ASCII digits and
    white space are read (Python also reads the Unicode ones): on a text
    with a byte above 127 the function answers [None], which is CPython's
    answer only when that text is not a number. *)

(** [Py_ISSPACE]: the space and the characters 9 to 13. *)
Definition is_space (c : ascii) : bool :=
  let n := N_of_ascii c in
  (n =? 32)%N || ((9 <=? n)%N && (n <=? 13)%N).

Definition is_digit (c : ascii) : bool :=
  let n := N_of_ascii c in (48 <=? n)%N && (n <=? 57)%N.

Definition digit_val (c : ascii) : Z := Z.of_N (N_of_ascii c) - 48.

Fixpoint lstrip (l : list ascii) : list ascii :=
  match l with
  | c :: r => if is_space c then lstrip r else l
  | [] => []
  end.

Definition strip (l : list ascii) : list ascii :=
  rev (lstrip (rev (lstrip l))).

(** [after_digit] tells whether the previous character was a digit: an
    underscore is read only there, and the text cannot end on one. *)
Fixpoint digits (acc : Z) (after_digit : bool) (l : list ascii) : option Z :=
  match l with
  | [] => if after_digit then Some acc else None
  | c :: r =>
      if is_digit c then digits (10 * acc + digit_val c) true r
      else if (c =? "_")%char && after_digit then
        match r with
        | [] => None
        | _ :: _ => digits acc false r
        end
      else None
  end.

(** The default of [sys.int_max_str_digits] (CPython 3.11 and later): a
    text with more digits is refused. *)
Definition max_str_digits : Z := 4300.

Definition count_digits (l : list ascii) : Z :=
  Z.of_nat (List.length (filter is_digit l)).

Definition int_of_string (s : string) : option Z :=
  let text := strip (list_ascii_of_string s) in
  if max_str_digits <? count_digits text then None
  else
    match text with
    | c :: r =>
        if (c =? "-")%char then option_map Z.opp (digits 0 false r)
        else if (c =? "+")%char then digits 0 false r
        else digits 0 false (c :: r)
    | [] => None
    end.

(** Whether a text has only bytes below 128; a value that is not a text
    passes. *)
Fixpoint is_ascii (s : string) : bool :=
  match s with
  | EmptyString => true
  | String c r => (N_of_ascii c <? 128)%N && is_ascii r
  end.

Definition ascii_text (v : json) : bool :=
  match v with
  | JStr s => is_ascii s
  | _ => true
  end.

(** [int(v)]: [None], lists and dicts raise [TypeError], a text that is not
    a number raises [ValueError]. *)
Definition int (v : json) : Z + pyexc :=
  match v with
  | JNull => inr TypeError
  | JBool b => inl (if b then 1 else 0)
  | JNum z => inl z
  | JStr s => match int_of_string s with
              | Some z => inl z
              | None => inr ValueError
              end
  | JArr _ => inr TypeError
  | JObj _ => inr TypeError
  end.

(** Lookup in the items of a dict. *)
Fixpoint lookup {A : Type} (k : string) (l : list (string * A)) : option A :=
  match l with
  | [] => None
  | (k', v) :: r => if (k =? k')%string then Some v else lookup k r
  end.

(** The value under [k] in the items of a dict, or [default]. *)
Definition item (l : list (string * json)) (k : string) (default : json) : json :=
  match lookup k l with
  | Some v => v
  | None => default
  end.

(** [d.get(k, default)]; only a dict has the method. *)
Definition get (d : json) (k : string) (default : json) : json + pyexc :=
  match d with
  | JObj l => inl (item l k default)
  | _ => inr AttributeError
  end.

(** [s == v] for a [str] s. *)
Definition eq_str (s : string) (v : json) : bool :=
  match v with
  | JStr t => (s =? t)%string
  | _ => false
  end.

Fixpoint is_prefix (p s : string) : bool :=
  match p, s with
  | EmptyString, _ => true
  | String a p', String b s' => (a =? b)%char && is_prefix p' s'
  | String _ _, EmptyString => false
  end.

Fixpoint is_substring (p s : string) : bool :=
  is_prefix p s ||
  match s with
  | EmptyString => false
  | String _ s' => is_substring p s'
  end.

(** [s in v] for a [str] s: an element of a list, a key of a dict, a part
    of a text; the other values are not iterable. *)
Definition contains (s : string) (v : json) : bool + pyexc :=
  match v with
  | JArr l => inl (existsb (eq_str s) l)
  | JObj l => inl (existsb (fun kv => (s =? fst kv)%string) l)
  | JStr t => inl (is_substring s t)
  | _ => inr TypeError
  end.

End Py.

(** ** Configuration

    The module-level names that [os.getenv] fills in at import time; a
    variable that is not set is [None].  [DISCORD_REDIRECT_URI] has a
    default and is always a [str]. *)

Record Config : Type := {
  DISCORD_CLIENT_ID : option string;
  DISCORD_CLIENT_SECRET : option string;
  DISCORD_REDIRECT_URI : string;
  REQUIRED_GUILD_ID : option string;
  DISCORD_BOT_TOKEN : option string
}.

Definition DISCORD_API_BASE_URL : string := "https://discord.com/api/v10".
Definition REQUIRED_ROLE_ID : string := "1381230703504527471".

(** ** The outside world

    An outbound HTTP call either fails in the network (requests raises a
    [RequestException]) or is answered with a status code and a body;
    [body] is [None] when the body is not JSON.  [create_custom_token]
    stands for [auth.create_custom_token(uid, claims).decode('utf-8')]:
    [None] when either call raises. *)

Inductive http_result : Type :=
| Fault
| Reply (status_code : Z) (body : option json).

Definition headers : Type := list (string * string).

Record World : Type := {
  post : string -> list (string * option string) -> headers -> http_result;
  get : string -> headers -> http_result;
  create_custom_token : json -> list (string * json) -> option string
}.

(** One entry per outbound call, with its arguments. *)
Inductive event : Type :=
| EvPost (url : string) (data : list (string * option string)) (h : headers)
| EvGet (url : string) (h : headers)
| EvCreateCustomToken (uid : json) (claims : list (string * json)).

Definition is_create_custom_token (e : event) : bool :=
  match e with
  | EvCreateCustomToken _ _ => true
  | _ => false
  end.

Definition is_network_call (e : event) : bool :=
  match e with
  | EvPost _ _ _ | EvGet _ _ => true
  | EvCreateCustomToken _ _ => false
  end.

(** [redirect(url_for(endpoint, **values))]. *)
Inductive response : Type :=
| redirect_url_for (endpoint : string) (values : list (string * json)).

(** [redirect(url_for("frontend_redirect", status=s))]. *)
Definition redirect_status (s : string) : response :=
  redirect_url_for "frontend_redirect" [("status", JStr s)].

Definition status_of (r : response) : option json :=
  match r with
  | redirect_url_for _ values => Py.lookup "status" values
  end.

(** ** Statements and their outcomes

    A block of statements either runs to its end with a value, leaves the
    function through [return], or raises. *)

Inductive outcome (A : Type) : Type :=
| Val (a : A)
| Ret (r : response)
| Exc (e : pyexc).
Arguments Val {A} a.
Arguments Ret {A} r.
Arguments Exc {A} e.

(** Expressions: a value or an exception. *)
Definition result (A : Type) : Type := (A + pyexc)%type.

Definition rbind {A B : Type} (m : result A) (k : A -> result B) : result B :=
  match m with
  | inl a => k a
  | inr e => inr e
  end.

(** Statements: the trace so far in, the trace and the outcome out. *)
Definition M (A : Type) : Type := list event -> list event * outcome A.

Definition ret {A : Type} (a : A) : M A := fun tr => (tr, Val a).

Definition bind {A B : Type} (m : M A) (k : A -> M B) : M B :=
  fun tr =>
    match m tr with
    | (tr', Val a) => k a tr'
    | (tr', Ret r) => (tr', Ret r)
    | (tr', Exc e) => (tr', Exc e)
    end.

Definition Return {A : Type} (r : response) : M A := fun tr => (tr, Ret r).

Definition lift {A : Type} (m : result A) : M A :=
  fun tr =>
    match m with
    | inl a => (tr, Val a)
    | inr e => (tr, Exc e)
    end.

(** [try: body except RequestException: handler]. *)
Definition try_except_RequestException {A : Type} (body handler : M A) : M A :=
  fun tr =>
    match body tr with
    | (tr', Exc RequestException) => handler tr'
    | other => other
    end.

Declare Scope py_scope.
Delimit Scope py_scope with py.
Notation "x <- m ;; k" := (bind m (fun x => k))
  (at level 61, m at next level, right associativity) : py_scope.
Notation "m ;; k" := (bind m (fun _ => k))
  (at level 61, right associativity) : py_scope.
Notation "x <-- m ;; k" := (rbind m (fun x => k))
  (at level 61, m at next level, right associativity) : py_scope.
Local Open Scope py_scope.

(** ** The callback ([discord_callback], lines 73 to 190)

    Logging through [print] is left out. *)

(** The locals that the user-info block assigns. *)
Record identity : Type := {
  discord_user_id : json;
  display_name : json;
  profile_picture_url : string
}.

(** Their values before the block (lines 107 to 109).  The block either
    assigns all three or raises, and its handler returns, so these values
    are never read. *)
Definition identity_before : identity :=
  {| discord_user_id := JNull;
     display_name := JStr "Unknown User";
     profile_picture_url := "https://discord.com/assets/f838f7c1ed7bc7ca2d4b.png" |}.

(** Lines 116 to 134: the identity read from the body of [/users/@me].
    In [int(discord_user_id) >> 22 % 6] Python's [%] binds tighter than
    [>>]: the shift is by [22 % 6] bits. *)
Definition user_info_block (user_info : json) : result identity :=
  discord_user_id <-- Py.get user_info "id" JNull ;;
  username <-- Py.get user_info "username" JNull ;;
  avatar <-- Py.get user_info "avatar" JNull ;;
  global_name <-- Py.get user_info "global_name" JNull ;;
  let display_name := if Py.truthy global_name then global_name else username in
  if Py.truthy avatar then
    inl {| discord_user_id := discord_user_id;
           display_name := display_name;
           profile_picture_url :=
             "https://cdn.discordapp.com/avatars/" ++ Py.str discord_user_id
               ++ "/" ++ Py.str avatar ++ ".png" |}
  else
    discriminator <-- Py.get user_info "discriminator" JNull ;;
    if Py.truthy discriminator && negb (Py.eq_str "0" discriminator) then
      d <-- Py.int discriminator ;;
      inl {| discord_user_id := discord_user_id;
             display_name := display_name;
             profile_picture_url :=
               "https://cdn.discordapp.com/embed/avatars/"
                 ++ Py.str_int (d mod 5) ++ ".png" |}
    else
      n <-- Py.int discord_user_id ;;
      inl {| discord_user_id := discord_user_id;
             display_name := display_name;
             profile_picture_url :=
               "https://cdn.discordapp.com/embed/avatars/"
                 ++ Py.str_int (Z.shiftr n (22 mod 6)) ++ ".png" |}.

Section Callback.

Variable cfg : Config.
Variable world : World.

Definition requests_post (url : string) (data : list (string * option string))
    (h : headers) : M http_result :=
  fun tr => ((tr ++ [EvPost url data h])%list,
             match post world url data h with
             | Fault => Exc RequestException
             | r => Val r
             end).

Definition requests_get (url : string) (h : headers) : M http_result :=
  fun tr => ((tr ++ [EvGet url h])%list,
             match get world url h with
             | Fault => Exc RequestException
             | r => Val r
             end).

(** [Response.raise_for_status()]: [HTTPError] on a 4xx or 5xx status. *)
Definition raise_for_status (r : http_result) : M unit :=
  match r with
  | Reply status_code _ =>
      if (400 <=? status_code) && (status_code <? 600)
      then lift (inr RequestException) else ret tt
  | Fault => lift (inr RequestException)
  end.

(** [Response.json()]: requests' [JSONDecodeError] when the body is not
    JSON. *)
Definition response_json (r : http_result) : M json :=
  match r with
  | Reply _ (Some v) => ret v
  | _ => lift (inr RequestException)
  end.

(** Lines 83 to 103: the code is exchanged for an access token. *)
Definition exchange_code (code : option string) : M json :=
  let data := [("client_id", DISCORD_CLIENT_ID cfg);
               ("client_secret", DISCORD_CLIENT_SECRET cfg);
               ("grant_type", Some "authorization_code");
               ("code", code);
               ("redirect_uri", Some (DISCORD_REDIRECT_URI cfg));
               ("scope", Some "identify guilds")] in
  let headers := [("Content-Type", "application/x-www-form-urlencoded")] in
  access_token <-
    try_except_RequestException
      (token_response <-
         requests_post (DISCORD_API_BASE_URL ++ "/oauth2/token") data headers ;;
       raise_for_status token_response ;;
       token_json <- response_json token_response ;;
       lift (Py.get token_json "access_token" JNull))
      (Return (redirect_status "error_token_exchange")) ;;
  if negb (Py.truthy access_token) then
    Return (redirect_status "error_no_access_token")
  else ret access_token.

(** Lines 106 to 141: the user is read with the access token. *)
Definition fetch_user_info (access_token : json) : M identity :=
  let user_headers := [("Authorization", "Bearer " ++ Py.str access_token)] in
  user <-
    try_except_RequestException
      (user_response <-
         requests_get (DISCORD_API_BASE_URL ++ "/users/@me") user_headers ;;
       raise_for_status user_response ;;
       user_info <- response_json user_response ;;
       lift (user_info_block user_info))
      (Return (redirect_status "error_fetch_user_info")) ;;
  if negb (Py.truthy (discord_user_id user)) then
    Return (redirect_status "error_missing_user_id")
  else ret user.

(** Lines 145 to 166: the value of [has_required_role]. *)
Definition role_verification (discord_user_id : json) : M bool :=
  if Py.truthy_opt (REQUIRED_GUILD_ID cfg) && Py.truthy_opt (DISCORD_BOT_TOKEN cfg)
  then
    try_except_RequestException
      (member_detail_response <-
         requests_get
           (DISCORD_API_BASE_URL ++ "/guilds/" ++ Py.str_opt (REQUIRED_GUILD_ID cfg)
              ++ "/members/" ++ Py.str discord_user_id)
           [("Authorization", "Bot " ++ Py.str_opt (DISCORD_BOT_TOKEN cfg))] ;;
       raise_for_status member_detail_response ;;
       member_data <- response_json member_detail_response ;;
       roles <- lift (Py.get member_data "roles" (JArr [])) ;;
       found <- lift (Py.contains REQUIRED_ROLE_ID roles) ;;
       ret (if found then true else false))
      (Return (redirect_status "error_role_check_failed"))
  else Return (redirect_status "error_role_check_config_missing").

(** The claims passed to [auth.create_custom_token] (lines 175 to 179). *)
Definition custom_claims (user : identity) : list (string * json) :=
  [("discord_username", display_name user);
   ("discord_pfp", JStr (profile_picture_url user));
   ("has_role", JBool true)].

(** Lines 173 to 190: the Firebase custom token and the last redirect;
    [except Exception] takes whatever the call raises. *)
Definition create_firebase_token (user : identity) : M response :=
  fun tr =>
    ((tr ++ [EvCreateCustomToken (discord_user_id user) (custom_claims user)])%list,
     match create_custom_token world (discord_user_id user) (custom_claims user) with
     | Some firebase_custom_token =>
         Ret (redirect_url_for "frontend_redirect"
                [("token", JStr firebase_custom_token);
                 ("discord_user_id", discord_user_id user);
                 ("discord_username", display_name user);
                 ("discord_pfp", JStr (profile_picture_url user));
                 ("status", JStr "success")])
     | None => Ret (redirect_status "error_firebase_token")
     end).

(** The statements of the callback up to the role verification. *)
Definition resolve_user (args : list (string * string)) : M identity :=
  let code := Py.lookup "code" args in
  if negb (Py.truthy_opt code) then Return (redirect_status "error_no_code")
  else
    access_token <- exchange_code code ;;
    fetch_user_info access_token.

(** [args] is [request.args]. *)
Definition discord_callback (args : list (string * string)) : M response :=
  user <- resolve_user args ;;
  has_required_role <- role_verification (discord_user_id user) ;;
  if negb has_required_role then Return (redirect_status "unauthorized_role")
  else create_firebase_token user.

(** What Flask gets from the view function, from an empty trace: the
    calls made, and the response or the exception that escaped. *)
Definition handle (args : list (string * string))
  : list event * (response + pyexc) :=
  match discord_callback args [] with
  | (tr, Val r) => (tr, inl r)
  | (tr, Ret r) => (tr, inl r)
  | (tr, Exc e) => (tr, inr e)
  end.

End Callback.

(** The URL and the headers of the member request (lines 150 and 151). *)
Definition member_url (cfg : Config) (discord_user_id : json) : string :=
  DISCORD_API_BASE_URL ++ "/guilds/" ++ Py.str_opt (REQUIRED_GUILD_ID cfg)
    ++ "/members/" ++ Py.str discord_user_id.

Definition bot_headers (cfg : Config) : headers :=
  [("Authorization", "Bot " ++ Py.str_opt (DISCORD_BOT_TOKEN cfg))].

(** Every status that the callback passes to [url_for]. *)
Definition statuses : list string :=
  ["error_no_code"; "error_token_exchange"; "error_no_access_token";
   "error_fetch_user_info"; "error_missing_user_id"; "error_role_check_failed";
   "error_role_check_config_missing"; "unauthorized_role";
   "error_firebase_token"; "success"].

(** ** The page behind the redirect ([frontend_redirect], lines 192 to 236) *)

Definition frontend_base_url : string := "https://nzpacks-website.vercel.app".

(** [request.args.get(k, default)]. *)
Definition args_get (args : list (string * string)) (k default : string) : string :=
  match Py.lookup k args with
  | Some v => v
  | None => default
  end.

(** Lines 204 to 218. *)
Definition redirect_url (args : list (string * string)) : string :=
  let token := args_get args "token" "" in
  let discord_user_id := args_get args "discord_user_id" "" in
  let discord_username := args_get args "discord_username" "" in
  let discord_pfp := args_get args "discord_pfp" "" in
  let status := args_get args "status" "error" in
  frontend_base_url ++ "#"
    ++ "token=" ++ token ++ "&"
    ++ "discord_user_id=" ++ discord_user_id ++ "&"
    ++ "discord_username=" ++ discord_username ++ "&"
    ++ "discord_pfp=" ++ discord_pfp ++ "&"
    ++ "status=" ++ status.

Definition quote : string := String Py.dquote "".

(** Lines 221 to 236: the page, with the URL in its script and its link. *)
Definition frontend_redirect (args : list (string * string)) : string :=
  "
    <!DOCTYPE html>
    <html>
    <head>
        <title>Redirecting...</title>
        <script>
            // Use replace to prevent the redirect page from being in browser history
            window.location.replace(" ++ quote ++ redirect_url args ++ quote ++ ");
        </script>
    </head>
    <body>
        <p>Redirecting to frontend...</p>
        <a href=" ++ quote ++ redirect_url args ++ quote ++ ">Click here if not redirected automatically</a>
    </body>
    </html>
    ".

(** ** The requests of the callback, by name

    The arguments of the calls of lines 94, 112 and 149, for stating what
    a trace holds. *)

Definition token_url : string := DISCORD_API_BASE_URL ++ "/oauth2/token".

Definition token_data (cfg : Config) (code : option string)
  : list (string * option string) :=
  [("client_id", DISCORD_CLIENT_ID cfg);
   ("client_secret", DISCORD_CLIENT_SECRET cfg);
   ("grant_type", Some "authorization_code");
   ("code", code);
   ("redirect_uri", Some (DISCORD_REDIRECT_URI cfg));
   ("scope", Some "identify guilds")].

Definition token_headers : headers :=
  [("Content-Type", "application/x-www-form-urlencoded")].

Definition token_request (cfg : Config) (code : option string) : event :=
  EvPost token_url (token_data cfg code) token_headers.

Definition user_request (access_token : json) : event :=
  EvGet (DISCORD_API_BASE_URL ++ "/users/@me")
    [("Authorization", "Bearer " ++ Py.str access_token)].

Definition member_request (cfg : Config) (discord_user_id : json) : event :=
  EvGet (member_url cfg discord_user_id) (bot_headers cfg).

Definition issue_request (user : identity) : event :=
  EvCreateCustomToken (discord_user_id user) (custom_claims user).

(** What the world answers to them. *)
Definition token_reply (cfg : Config) (world : World) (code : option string)
  : http_result :=
  post world token_url (token_data cfg code) token_headers.

Definition user_reply (world : World) (access_token : json) : http_result :=
  get world (DISCORD_API_BASE_URL ++ "/users/@me")
    [("Authorization", "Bearer " ++ Py.str access_token)].

Definition member_reply (cfg : Config) (world : World) (discord_user_id : json)
  : http_result :=
  get world (member_url cfg discord_user_id) (bot_headers cfg).

(** The redirect of line 183. *)
Definition redirect_success (firebase_custom_token : string) (user : identity)
  : response :=
  redirect_url_for "frontend_redirect"
    [("token", JStr firebase_custom_token);
     ("discord_user_id", discord_user_id user);
     ("discord_username", display_name user);
     ("discord_pfp", JStr (profile_picture_url user));
     ("status", JStr "success")].

(** A reply on which [raise_for_status()] or [json()] raises, or the
    failure of the call itself. *)
Definition is_failure (r : http_result) : bool :=
  match r with
  | Fault => true
  | Reply status_code None => true
  | Reply status_code (Some _) => (400 <=? status_code) && (status_code <? 600)
  end.

(** ** The login redirect ([discord_login], lines 64 to 71)

    The location that [redirect] is given. *)
Definition discord_login (cfg : Config) : string :=
  let scope := "identify guilds" in
  DISCORD_API_BASE_URL ++ "/oauth2/authorize?client_id="
    ++ Py.str_opt (DISCORD_CLIENT_ID cfg)
    ++ "&redirect_uri=" ++ DISCORD_REDIRECT_URI cfg
    ++ "&response_type=code&scope=" ++ scope.

(** ** Start-up (lines 22 to 57 and 238 to 273)

    [environ] is the process environment after [load_dotenv()]. *)

Definition environ : Type := list (string * string).

(** [os.getenv(k)]. *)
Definition getenv (env : environ) (k : string) : option string := Py.lookup k env.

(** The module-level configuration (lines 22 to 28, 55 and 57). *)
Definition config_of_env (env : environ) : Config :=
  {| DISCORD_CLIENT_ID := getenv env "DISCORD_CLIENT_ID";
     DISCORD_CLIENT_SECRET := getenv env "DISCORD_CLIENT_SECRET";
     DISCORD_REDIRECT_URI :=
       match getenv env "DISCORD_REDIRECT_URI" with
       | Some v => v
       | None => "https://scenepacks-652656771624.us-central1.run.app/callback"
       end;
     REQUIRED_GUILD_ID := getenv env "DISCORD_GUILD_ID";
     DISCORD_BOT_TOKEN := getenv env "DISCORD_BOT_TOKEN" |}.

Definition required_env_vars : list string :=
  ["DISCORD_CLIENT_ID"; "DISCORD_CLIENT_SECRET"; "DISCORD_GUILD_ID";
   "DISCORD_BOT_TOKEN"].

(** How the [__main__] block ends: [exit(code)], Flask's development
    server, or Gunicorn with the settings of [load_config]. *)
Inductive launch : Type :=
| Exit (code : Z)
| AppRun (debug : bool) (port : Z)
| Gunicorn (bind : string) (workers timeout : Z).

(** The loop of lines 242 to 245: the exit code at the first variable that
    is not set or empty. *)
Fixpoint check_required (env : environ) (vars : list string) : option Z :=
  match vars with
  | [] => None
  | var :: rest =>
      if negb (Py.truthy_opt (getenv env var)) then Some 1
      else check_required env rest
  end.

(** Lines 238 to 273.  The test on [FIREBASE_SERVICE_ACCOUNT_KEY] only
    prints. *)
Definition main (env : environ) : launch :=
  match check_required env required_env_vars with
  | Some code => Exit code
  | None =>
      if match getenv env "FLASK_ENV" with
         | Some v => (v =? "development")%string
         | None => false
         end
      then AppRun true 5000
      else Gunicorn "0.0.0.0:8080" 1 60
  end.

(** ** The paths of the callback

    [path cfg world args tr out]: one constructor for each way through
    [discord_callback], with the calls made and what Flask gets.  It is
    related to [handle] by [handle_path] below. *)

Inductive path (cfg : Config) (world : World) (args : list (string * string))
  : list event -> response + pyexc -> Prop :=
| path_no_code :
    Py.truthy_opt (Py.lookup "code" args) = false ->
    path cfg world args [] (inl (redirect_status "error_no_code"))
| path_token_exchange :
    Py.truthy_opt (Py.lookup "code" args) = true ->
    is_failure (token_reply cfg world (Py.lookup "code" args)) = true ->
    path cfg world args
      [token_request cfg (Py.lookup "code" args)]
      (inl (redirect_status "error_token_exchange"))
| path_token_not_dict status_code token_json :
    Py.truthy_opt (Py.lookup "code" args) = true ->
    token_reply cfg world (Py.lookup "code" args)
      = Reply status_code (Some token_json) ->
    is_failure (token_reply cfg world (Py.lookup "code" args)) = false ->
    Py.get token_json "access_token" JNull = inr AttributeError ->
    path cfg world args
      [token_request cfg (Py.lookup "code" args)]
      (inr AttributeError)
| path_no_access_token status_code token_json access_token :
    Py.truthy_opt (Py.lookup "code" args) = true ->
    token_reply cfg world (Py.lookup "code" args)
      = Reply status_code (Some token_json) ->
    is_failure (token_reply cfg world (Py.lookup "code" args)) = false ->
    Py.get token_json "access_token" JNull = inl access_token ->
    Py.truthy access_token = false ->
    path cfg world args
      [token_request cfg (Py.lookup "code" args)]
      (inl (redirect_status "error_no_access_token"))
| path_fetch_user_info access_token :
    exchange_code cfg world (Py.lookup "code" args) []
      = ([token_request cfg (Py.lookup "code" args)], Val access_token) ->
    is_failure (user_reply world access_token) = true ->
    path cfg world args
      [token_request cfg (Py.lookup "code" args); user_request access_token]
      (inl (redirect_status "error_fetch_user_info"))
| path_user_info_raises access_token status_code user_info e :
    exchange_code cfg world (Py.lookup "code" args) []
      = ([token_request cfg (Py.lookup "code" args)], Val access_token) ->
    user_reply world access_token = Reply status_code (Some user_info) ->
    is_failure (user_reply world access_token) = false ->
    user_info_block user_info = inr e ->
    e <> RequestException ->
    path cfg world args
      [token_request cfg (Py.lookup "code" args); user_request access_token]
      (inr e)
| path_missing_user_id access_token status_code user_info user :
    exchange_code cfg world (Py.lookup "code" args) []
      = ([token_request cfg (Py.lookup "code" args)], Val access_token) ->
    user_reply world access_token = Reply status_code (Some user_info) ->
    is_failure (user_reply world access_token) = false ->
    user_info_block user_info = inl user ->
    Py.truthy (discord_user_id user) = false ->
    path cfg world args
      [token_request cfg (Py.lookup "code" args); user_request access_token]
      (inl (redirect_status "error_missing_user_id"))
| path_config_missing access_token user :
    resolve_user cfg world args []
      = ([token_request cfg (Py.lookup "code" args); user_request access_token],
         Val user) ->
    Py.truthy_opt (REQUIRED_GUILD_ID cfg) && Py.truthy_opt (DISCORD_BOT_TOKEN cfg)
      = false ->
    path cfg world args
      [token_request cfg (Py.lookup "code" args); user_request access_token]
      (inl (redirect_status "error_role_check_config_missing"))
| path_role_check_failed access_token user :
    resolve_user cfg world args []
      = ([token_request cfg (Py.lookup "code" args); user_request access_token],
         Val user) ->
    Py.truthy_opt (REQUIRED_GUILD_ID cfg) && Py.truthy_opt (DISCORD_BOT_TOKEN cfg)
      = true ->
    is_failure (member_reply cfg world (discord_user_id user)) = true ->
    path cfg world args
      [token_request cfg (Py.lookup "code" args); user_request access_token;
       member_request cfg (discord_user_id user)]
      (inl (redirect_status "error_role_check_failed"))
| path_roles_raise access_token user status_code member_data e :
    resolve_user cfg world args []
      = ([token_request cfg (Py.lookup "code" args); user_request access_token],
         Val user) ->
    Py.truthy_opt (REQUIRED_GUILD_ID cfg) && Py.truthy_opt (DISCORD_BOT_TOKEN cfg)
      = true ->
    member_reply cfg world (discord_user_id user)
      = Reply status_code (Some member_data) ->
    is_failure (member_reply cfg world (discord_user_id user)) = false ->
    rbind (Py.get member_data "roles" (JArr [])) (Py.contains REQUIRED_ROLE_ID)
      = inr e ->
    e <> RequestException ->
    path cfg world args
      [token_request cfg (Py.lookup "code" args); user_request access_token;
       member_request cfg (discord_user_id user)]
      (inr e)
| path_unauthorized access_token user status_code member_data :
    resolve_user cfg world args []
      = ([token_request cfg (Py.lookup "code" args); user_request access_token],
         Val user) ->
    Py.truthy_opt (REQUIRED_GUILD_ID cfg) && Py.truthy_opt (DISCORD_BOT_TOKEN cfg)
      = true ->
    member_reply cfg world (discord_user_id user)
      = Reply status_code (Some member_data) ->
    is_failure (member_reply cfg world (discord_user_id user)) = false ->
    rbind (Py.get member_data "roles" (JArr [])) (Py.contains REQUIRED_ROLE_ID)
      = inl false ->
    path cfg world args
      [token_request cfg (Py.lookup "code" args); user_request access_token;
       member_request cfg (discord_user_id user)]
      (inl (redirect_status "unauthorized_role"))
| path_issued access_token user status_code member_data issued :
    resolve_user cfg world args []
      = ([token_request cfg (Py.lookup "code" args); user_request access_token],
         Val user) ->
    Py.truthy_opt (REQUIRED_GUILD_ID cfg) && Py.truthy_opt (DISCORD_BOT_TOKEN cfg)
      = true ->
    member_reply cfg world (discord_user_id user)
      = Reply status_code (Some member_data) ->
    is_failure (member_reply cfg world (discord_user_id user)) = false ->
    rbind (Py.get member_data "roles" (JArr [])) (Py.contains REQUIRED_ROLE_ID)
      = inl true ->
    create_custom_token world (discord_user_id user) (custom_claims user) = issued ->
    path cfg world args
      [token_request cfg (Py.lookup "code" args); user_request access_token;
       member_request cfg (discord_user_id user); issue_request user]
      (inl match issued with
           | Some firebase_custom_token => redirect_success firebase_custom_token user
           | None => redirect_status "error_firebase_token"
           end).

(** ** Quiet blocks

    A block is [quiet] when the events it adds to the trace hold no call
    of [auth.create_custom_token]. *)

Definition quiet {A : Type} (m : M A) : Prop :=
  forall tr, exists es,
    fst (m tr) = (tr ++ es)%list /\ existsb is_create_custom_token es = false.

(** ** Worlds and configurations for the examples *)

Module Example.

Definition cfg : Config :=
  {| DISCORD_CLIENT_ID := Some "client";
     DISCORD_CLIENT_SECRET := Some "secret";
     DISCORD_REDIRECT_URI := "http://localhost:5000/callback";
     REQUIRED_GUILD_ID := Some "guild";
     DISCORD_BOT_TOKEN := Some "bot" |}.

(** The same, without the bot token. *)
Definition cfg_no_bot : Config :=
  {| DISCORD_CLIENT_ID := Some "client";
     DISCORD_CLIENT_SECRET := Some "secret";
     DISCORD_REDIRECT_URI := "http://localhost:5000/callback";
     REQUIRED_GUILD_ID := Some "guild";
     DISCORD_BOT_TOKEN := None |}.

(** A provider that answers 200 everywhere: the token endpoint with access
    token [t1], [/users/@me] with [user_info], the member endpoint with
    [member_data]; the token issuer answers [issued]. *)
Definition provider (user_info member_data : json) (issued : option string) : World :=
  {| post := fun _ _ _ => Reply 200 (Some (JObj [("access_token", JStr "t1")]));
     get := fun url _ =>
              if (url =? DISCORD_API_BASE_URL ++ "/users/@me")%string
              then Reply 200 (Some user_info)
              else Reply 200 (Some member_data);
     create_custom_token := fun _ _ => issued |}.

Definition al : json :=
  JObj [("id", JStr "42"); ("username", JStr "al"); ("global_name", JStr "Al");
        ("avatar", JNull); ("discriminator", JStr "0")].

Definition member (roles : list json) : json :=
  JObj [("user", JObj [("id", JStr "42")]); ("roles", JArr roles)].

Definition member_without_roles : json :=
  JObj [("user", JObj [("id", JStr "42")])].

Definition args : list (string * string) := [("code", "abc")].

(** The identity that the callback reads from [al]. *)
Definition al_identity : identity :=
  {| discord_user_id := JStr "42";
     display_name := JStr "Al";
     profile_picture_url := "https://cdn.discordapp.com/embed/avatars/2.png" |}.

(** The member holds the required role; the issuer signs. *)
Definition granted : World :=
  provider al (member [JStr "A"; JStr REQUIRED_ROLE_ID; JStr "B"]) (Some "signed123").

(** The member does not hold the required role. *)
Definition denied : World :=
  provider al (member [JStr "A"; JStr "B"]) (Some "signed123").

(** The member answer has no [roles] key. *)
Definition no_roles : World :=
  provider al member_without_roles (Some "signed123").

(** The member holds the required role; the issuer raises. *)
Definition issuer_down : World :=
  provider al (member [JStr REQUIRED_ROLE_ID]) None.

(** The calls of the callback before the role verification. *)
Definition resolved_trace (cfg : Config) : list event :=
  [EvPost "https://discord.com/api/v10/oauth2/token"
     [("client_id", DISCORD_CLIENT_ID cfg);
      ("client_secret", DISCORD_CLIENT_SECRET cfg);
      ("grant_type", Some "authorization_code");
      ("code", Some "abc");
      ("redirect_uri", Some (DISCORD_REDIRECT_URI cfg));
      ("scope", Some "identify guilds")]
     [("Content-Type", "application/x-www-form-urlencoded")];
   EvGet "https://discord.com/api/v10/users/@me" [("Authorization", "Bearer t1")]].

Definition member_request : event :=
  EvGet "https://discord.com/api/v10/guilds/guild/members/42"
    [("Authorization", "Bot bot")].

(** A world that gives the three answers and the issuer's result. *)
Definition answers (token user member : http_result) (issued : option string)
  : World :=
  {| post := fun _ _ _ => token;
     get := fun url _ =>
              if (url =? DISCORD_API_BASE_URL ++ "/users/@me")%string
              then user else member;
     create_custom_token := fun _ _ => issued |}.

Definition token_ok : http_result :=
  Reply 200 (Some (JObj [("access_token", JStr "t1")])).

Definition user_ok : http_result := Reply 200 (Some al).

Definition member_ok : http_result :=
  Reply 200 (Some (member [JStr "A"; JStr REQUIRED_ROLE_ID; JStr "B"])).

(** An environment with every variable that the start-up asks for. *)
Definition env : environ :=
  [("DISCORD_CLIENT_ID", "client"); ("DISCORD_CLIENT_SECRET", "secret");
   ("DISCORD_GUILD_ID", "guild"); ("DISCORD_BOT_TOKEN", "bot")].

(** One way to carry the values of [url_for] to [request.args]: texts as
    they are, [None] left out, the other values through [str]. *)
Definition query_of (values : list (string * json)) : list (string * string) :=
  flat_map (fun kv => match snd kv with
                      | JNull => []
                      | v => [(fst kv, Py.str v)]
                      end) values.

End Example.

(** * Properties *)

(** ** Python primitives *)

Lemma existsb_eq_str_In (s : string) (l : list json) :
  existsb (Py.eq_str s) l = true <-> In (JStr s) l.
Proof.
  rewrite existsb_exists. split.
  - intros [v [Hin Heq]]. destruct v; simpl in Heq; try discriminate.
    apply String.eqb_eq in Heq. now subst.
  - intros Hin. exists (JStr s). split; [assumption | apply String.eqb_refl].
Qed.

Lemma truthy_str (s : string) : Py.truthy (JStr s) = true <-> s <> "".
Proof.
  simpl. rewrite negb_true_iff. apply String.eqb_neq.
Qed.

Lemma raise_for_status_2xx (status_code : Z) (body : option json) :
  200 <= status_code < 300 ->
  raise_for_status (Reply status_code body) = ret tt.
Proof.
  intros H. unfold raise_for_status.
  replace (status_code <? 600) with true by (symmetry; apply Z.ltb_lt; lia).
  replace (400 <=? status_code) with false by (symmetry; apply Z.leb_gt; lia).
  reflexivity.
Qed.

(** ** The code parameter *)

(** C7: when the [code] query parameter is absent or empty, the callback
    redirects with status [error_no_code] and has made no outbound call
    (its trace is empty). *)
Theorem no_code_no_outbound_call (cfg : Config) (world : World)
    (args : list (string * string)) :
  Py.truthy_opt (Py.lookup "code" args) = false ->
  handle cfg world args = ([], inl (redirect_status "error_no_code")).
Proof.
  intros H. unfold handle, discord_callback, resolve_user, bind.
  rewrite H. reflexivity.
Qed.

Lemma no_code_no_outbound_call_witness :
  handle Example.cfg Example.granted [("state", "x"); ("code", "")]
  = ([], inl (redirect_status "error_no_code")).
Proof.
  apply (no_code_no_outbound_call Example.cfg Example.granted
           [("state", "x"); ("code", "")]).
  reflexivity.
Defined.

(** ** The identity read from the user-info body *)

(** What the block stores in [discord_user_id] and [display_name],
    whenever it does not raise. *)
Lemma user_info_block_fields (fields : list (string * json)) (user : identity) :
  user_info_block (JObj fields) = inl user ->
  discord_user_id user = Py.item fields "id" JNull /\
  display_name user =
    (if Py.truthy (Py.item fields "global_name" JNull)
     then Py.item fields "global_name" JNull
     else Py.item fields "username" JNull).
Proof.
  unfold user_info_block. simpl.
  destruct (Py.truthy (Py.item fields "avatar" JNull)).
  - intros H. injection H as <-. split; reflexivity.
  - destruct (Py.truthy (Py.item fields "discriminator" JNull)
              && negb (Py.eq_str "0" (Py.item fields "discriminator" JNull))).
    + destruct (Py.int (Py.item fields "discriminator" JNull)); simpl;
        intros H; [injection H as <-; split; reflexivity | discriminate].
    + destruct (Py.int (Py.item fields "id" JNull)); simpl;
        intros H; [injection H as <-; split; reflexivity | discriminate].
Qed.

(** Without a custom avatar and outside the legacy branch, the index in
    the URL is [int(discord_user_id) >> 4]. *)
Lemma modern_default_avatar_index (fields : list (string * json)) (n : Z) :
  Py.truthy (Py.item fields "avatar" JNull) = false ->
  Py.truthy (Py.item fields "discriminator" JNull)
    && negb (Py.eq_str "0" (Py.item fields "discriminator" JNull)) = false ->
  Py.int (Py.item fields "id" JNull) = inl n ->
  exists user,
    user_info_block (JObj fields) = inl user /\
    profile_picture_url user =
      "https://cdn.discordapp.com/embed/avatars/" ++ Py.str_int (Z.shiftr n 4) ++ ".png".
Proof.
  intros Havatar Hdisc Hint. unfold user_info_block. simpl.
  rewrite Havatar, Hdisc, Hint. simpl.
  eexists. split; reflexivity.
Qed.

(** C1: for the user-info body with id 12345678901234, no avatar and
    discriminator "0", the derived URL carries index 771604931327, which is
    12345678901234 >> 4, and not (12345678901234 >> 22) mod 6 = 1. *)
Theorem modern_default_avatar_at_12345678901234 :
  exists user,
    user_info_block
      (JObj [("id", JStr "12345678901234"); ("username", JStr "bar");
             ("avatar", JNull); ("discriminator", JStr "0")]) = inl user /\
    profile_picture_url user
      = "https://cdn.discordapp.com/embed/avatars/771604931327.png" /\
    Z.shiftr 12345678901234 22 mod 6 = 1 /\
    profile_picture_url user
      <> "https://cdn.discordapp.com/embed/avatars/"
           ++ Py.str_int (Z.shiftr 12345678901234 22 mod 6) ++ ".png".
Proof.
  eexists. split; [reflexivity |]. simpl profile_picture_url.
  split; [reflexivity |]. split; [reflexivity |].
  vm_compute. discriminate.
Qed.

(** C8: without a custom avatar, and with a discriminator that is a text
    other than "0" and reads as the integer [n], the derived URL is the
    default avatar of index [n mod 5], one of 0 to 4. *)
Theorem legacy_default_avatar_index (fields : list (string * json))
    (d : string) (n : Z) :
  Py.truthy (Py.item fields "avatar" JNull) = false ->
  Py.lookup "discriminator" fields = Some (JStr d) ->
  d <> "0" ->
  Py.int (JStr d) = inl n ->
  exists user,
    user_info_block (JObj fields) = inl user /\
    profile_picture_url user =
      "https://cdn.discordapp.com/embed/avatars/" ++ Py.str_int (n mod 5) ++ ".png" /\
    0 <= n mod 5 < 5.
Proof.
  intros Havatar Hlookup Hneq Hint.
  assert (Hitem : Py.item fields "discriminator" JNull = JStr d)
    by (unfold Py.item; now rewrite Hlookup).
  assert (Hd : d <> "") by (intros ->; discriminate Hint).
  unfold user_info_block. simpl. rewrite Havatar, Hitem.
  replace (Py.truthy (JStr d)) with true
    by (symmetry; now apply truthy_str).
  replace (Py.eq_str "0" (JStr d)) with false
    by (symmetry; apply String.eqb_neq; congruence).
  simpl andb. cbv iota. rewrite Hint. simpl.
  eexists. split; [reflexivity |]. split; [reflexivity |].
  apply Z.mod_pos_bound. lia.
Qed.

Lemma legacy_default_avatar_index_witness :
  exists user,
    user_info_block
      (JObj [("id", JStr "80351110224678912"); ("username", JStr "nelly");
             ("avatar", JNull); ("discriminator", JStr "1234")]) = inl user /\
    profile_picture_url user = "https://cdn.discordapp.com/embed/avatars/4.png" /\
    0 <= 1234 mod 5 < 5.
Proof.
  apply (legacy_default_avatar_index
           [("id", JStr "80351110224678912"); ("username", JStr "nelly");
            ("avatar", JNull); ("discriminator", JStr "1234")] "1234" 1234).
  - reflexivity.
  - reflexivity.
  - discriminate.
  - reflexivity.
Defined.

(** C3, as stated, fails: the body with an id and neither a global name
    nor a username resolves to an identity whose display name is [None]. *)
Lemma display_name_can_be_empty :
  ~ (forall (fields : list (string * json)) (user : identity),
        user_info_block (JObj fields) = inl user ->
        Py.truthy (discord_user_id user) = true ->
        Py.truthy (display_name user) = true).
Proof.
  intros H.
  specialize (H [("id", JStr "42"); ("avatar", JStr "a1b2")] _ eq_refl eq_refl).
  discriminate H.
Qed.

(** C3, amended: the display name of a resolved identity is the global
    name when that is present and non-empty, and the username field
    otherwise; it is non-empty exactly when one of the two is. *)
Theorem display_name_fallback (fields : list (string * json)) (user : identity) :
  user_info_block (JObj fields) = inl user ->
  Py.truthy (discord_user_id user) = true ->
  display_name user =
    (if Py.truthy (Py.item fields "global_name" JNull)
     then Py.item fields "global_name" JNull
     else Py.item fields "username" JNull) /\
  (Py.truthy (display_name user) = true <->
   Py.truthy (Py.item fields "global_name" JNull) = true \/
   Py.truthy (Py.item fields "username" JNull) = true).
Proof.
  intros Hblock _. apply user_info_block_fields in Hblock as [_ Hname].
  split; [exact Hname |]. rewrite Hname.
  destruct (Py.truthy (Py.item fields "global_name" JNull)) eqn:Hglobal.
  - rewrite Hglobal. split; auto.
  - split; [auto | intros [H | H]; [discriminate | assumption]].
Qed.

Lemma display_name_fallback_witness :
  display_name Example.al_identity = JStr "Al" /\
  (Py.truthy (display_name Example.al_identity) = true <->
   Py.truthy (JStr "Al") = true \/ Py.truthy (JStr "al") = true).
Proof.
  apply (display_name_fallback
           [("id", JStr "42"); ("username", JStr "al"); ("global_name", JStr "Al");
            ("avatar", JNull); ("discriminator", JStr "0")]
           Example.al_identity).
  - reflexivity.
  - reflexivity.
Defined.

(** ** Blocks that do not call the token issuer *)

Lemma quiet_ret {A : Type} (a : A) : quiet (ret a).
Proof. intros tr. exists []. now rewrite app_nil_r. Qed.

Lemma quiet_Return {A : Type} (r : response) : quiet (@Return A r).
Proof. intros tr. exists []. now rewrite app_nil_r. Qed.

Lemma quiet_lift {A : Type} (m : result A) : quiet (lift m).
Proof. intros tr. exists []. rewrite app_nil_r. now destruct m. Qed.

Lemma quiet_bind {A B : Type} (m : M A) (k : A -> M B) :
  quiet m -> (forall a, quiet (k a)) -> quiet (bind m k).
Proof.
  intros Hm Hk tr. unfold bind.
  destruct (Hm tr) as [es [Hes Hq]].
  destruct (m tr) as [tr' [a | r | e]]; simpl in Hes; subst tr'.
  - destruct (Hk a (tr ++ es)%list) as [es' [Hes' Hq']].
    exists (es ++ es')%list. rewrite Hes', app_assoc. split; [reflexivity |].
    rewrite existsb_app, Hq, Hq'. reflexivity.
  - exists es. split; [reflexivity | assumption].
  - exists es. split; [reflexivity | assumption].
Qed.

Lemma quiet_try {A : Type} (body handler : M A) :
  quiet body -> quiet handler -> quiet (try_except_RequestException body handler).
Proof.
  intros Hb Hh tr. unfold try_except_RequestException.
  destruct (Hb tr) as [es [Hes Hq]].
  destruct (body tr) as [tr' [a | r | e]]; simpl in Hes; subst tr';
    try (exists es; split; [reflexivity | assumption]).
  destruct e; try (exists es; split; [reflexivity | assumption]).
  destruct (Hh (tr ++ es)%list) as [es' [Hes' Hq']].
  exists (es ++ es')%list. rewrite Hes', app_assoc. split; [reflexivity |].
  rewrite existsb_app, Hq, Hq'. reflexivity.
Qed.

Lemma quiet_if {A : Type} (b : bool) (m1 m2 : M A) :
  quiet m1 -> quiet m2 -> quiet (if b then m1 else m2).
Proof. now destruct b. Qed.

Create HintDb quiet.

Section Quiet.

Variable cfg : Config.
Variable world : World.

Lemma quiet_requests_post url data h : quiet (requests_post world url data h).
Proof. intros tr. exists [EvPost url data h]. split; reflexivity. Qed.

Lemma quiet_requests_get url h : quiet (requests_get world url h).
Proof. intros tr. exists [EvGet url h]. split; reflexivity. Qed.

Lemma quiet_raise_for_status r : quiet (raise_for_status r).
Proof.
  destruct r as [| status_code body]; simpl.
  - apply quiet_lift.
  - apply quiet_if; [apply quiet_lift | apply quiet_ret].
Qed.

Lemma quiet_response_json r : quiet (response_json r).
Proof.
  destruct r as [| status_code [v |]]; simpl;
    [apply quiet_lift | apply quiet_ret | apply quiet_lift].
Qed.

#[local] Hint Resolve quiet_ret quiet_Return quiet_lift quiet_requests_post
  quiet_requests_get quiet_raise_for_status quiet_response_json : quiet.

Ltac quiet_block :=
  repeat first
    [ apply quiet_bind; [| intros ?]
    | apply quiet_try
    | apply quiet_if
    | solve [auto with quiet] ].

Lemma quiet_exchange_code code : quiet (exchange_code cfg world code).
Proof. unfold exchange_code. quiet_block. Qed.

Lemma quiet_fetch_user_info access_token :
  quiet (fetch_user_info world access_token).
Proof. unfold fetch_user_info. quiet_block. Qed.

Lemma quiet_role_verification id : quiet (role_verification cfg world id).
Proof. unfold role_verification. quiet_block. Qed.

Lemma quiet_resolve_user args : quiet (resolve_user cfg world args).
Proof.
  unfold resolve_user. apply quiet_if; [apply quiet_Return |].
  apply quiet_bind; [apply quiet_exchange_code | intros a; apply quiet_fetch_user_info].
Qed.

End Quiet.

Lemma In_create_custom_token (uid : json) (claims : list (string * json))
    (tr : list event) :
  In (EvCreateCustomToken uid claims) tr ->
  existsb is_create_custom_token tr = true.
Proof.
  intros H. apply existsb_exists. now exists (EvCreateCustomToken uid claims).
Qed.

(** ** Role verification *)

(** With the configuration present and a 2xx answer whose body is JSON,
    the block makes the one member request and then searches the roles. *)
Lemma role_verification_reply (cfg : Config) (world : World) (id : json)
    (tr : list event) (status_code : Z) (member_data : json) :
  Py.truthy_opt (REQUIRED_GUILD_ID cfg) = true ->
  Py.truthy_opt (DISCORD_BOT_TOKEN cfg) = true ->
  get world (member_url cfg id) (bot_headers cfg)
    = Reply status_code (Some member_data) ->
  200 <= status_code < 300 ->
  role_verification cfg world id tr =
    ((tr ++ [EvGet (member_url cfg id) (bot_headers cfg)])%list,
     match rbind (Py.get member_data "roles" (JArr []))
                 (Py.contains REQUIRED_ROLE_ID) with
     | inl found => Val found
     | inr e => Exc e
     end).
Proof.
  intros Hguild Hbot Hget Hstatus.
  unfold role_verification. rewrite Hguild, Hbot. cbn [andb].
  unfold try_except_RequestException, bind at 1, requests_get.
  fold (member_url cfg id). fold (bot_headers cfg). rewrite Hget.
  unfold bind at 1. rewrite (raise_for_status_2xx _ _ Hstatus).
  unfold ret at 1. unfold bind, response_json, ret, lift.
  destruct member_data as [| b | z | s | items | fields]; try reflexivity.
  cbn [Py.get rbind].
  destruct (Py.item fields "roles" (JArr [])) as [| b | z | s | items | fs];
    cbn [Py.contains]; try reflexivity;
    match goal with |- context [if ?c then _ else _] => now destruct c end.
Qed.

(** C4: when the required guild id or the bot token is absent (or empty),
    the role verification adds no call to the trace and returns the
    redirect with status [error_role_check_config_missing]; that is the
    response of every callback that gets as far as this step. *)
Theorem role_check_config_missing (cfg : Config) (world : World)
    (args : list (string * string)) (tr : list event) (user : identity) :
  Py.truthy_opt (REQUIRED_GUILD_ID cfg) = false \/
  Py.truthy_opt (DISCORD_BOT_TOKEN cfg) = false ->
  resolve_user cfg world args [] = (tr, Val user) ->
  (forall id tr0,
      role_verification cfg world id tr0
      = (tr0, Ret (redirect_status "error_role_check_config_missing"))) /\
  handle cfg world args
  = (tr, inl (redirect_status "error_role_check_config_missing")).
Proof.
  intros Hcfg Hresolve.
  assert (Hrole : forall id tr0,
             role_verification cfg world id tr0
             = (tr0, Ret (redirect_status "error_role_check_config_missing"))).
  { intros id tr0. unfold role_verification.
    destruct Hcfg as [-> | ->]; [| rewrite andb_false_r]; reflexivity. }
  split; [exact Hrole |].
  unfold handle, discord_callback, bind at 1. rewrite Hresolve.
  unfold bind. rewrite Hrole. reflexivity.
Qed.

Lemma role_check_config_missing_witness :
  (forall id tr0,
      role_verification Example.cfg_no_bot Example.granted id tr0
      = (tr0, Ret (redirect_status "error_role_check_config_missing"))) /\
  handle Example.cfg_no_bot Example.granted Example.args
  = (Example.resolved_trace Example.cfg_no_bot,
     inl (redirect_status "error_role_check_config_missing")).
Proof.
  apply (role_check_config_missing Example.cfg_no_bot Example.granted
           Example.args (Example.resolved_trace Example.cfg_no_bot)
           Example.al_identity).
  - right. reflexivity.
  - reflexivity.
Defined.

(** C5: after a 2xx member answer whose roles are the list [roles],
    [has_required_role] is true exactly when the required role id is an
    element of [roles]; when it is not, the callback redirects with status
    [unauthorized_role]. *)
Theorem role_check_membership (cfg : Config) (world : World)
    (args : list (string * string)) (tr : list event) (user : identity)
    (status_code : Z) (member_data : json) (roles : list json) :
  Py.truthy_opt (REQUIRED_GUILD_ID cfg) = true ->
  Py.truthy_opt (DISCORD_BOT_TOKEN cfg) = true ->
  resolve_user cfg world args [] = (tr, Val user) ->
  get world (member_url cfg (discord_user_id user)) (bot_headers cfg)
    = Reply status_code (Some member_data) ->
  200 <= status_code < 300 ->
  Py.get member_data "roles" (JArr []) = inl (JArr roles) ->
  exists has_required_role : bool,
    role_verification cfg world (discord_user_id user) tr
    = ((tr ++ [EvGet (member_url cfg (discord_user_id user)) (bot_headers cfg)])%list,
       Val has_required_role) /\
    (has_required_role = true <-> In (JStr REQUIRED_ROLE_ID) roles) /\
    (~ In (JStr REQUIRED_ROLE_ID) roles ->
     handle cfg world args
     = ((tr ++ [EvGet (member_url cfg (discord_user_id user)) (bot_headers cfg)])%list,
        inl (redirect_status "unauthorized_role"))).
Proof.
  intros Hguild Hbot Hresolve Hget Hstatus Hroles.
  pose proof (role_verification_reply cfg world (discord_user_id user) tr
                status_code member_data Hguild Hbot Hget Hstatus) as Hrole.
  rewrite Hroles in Hrole. cbn [rbind Py.contains] in Hrole.
  exists (existsb (Py.eq_str REQUIRED_ROLE_ID) roles).
  split; [exact Hrole |]. split; [apply existsb_eq_str_In |].
  intros Hnot.
  assert (Hfalse : existsb (Py.eq_str REQUIRED_ROLE_ID) roles = false).
  { apply not_true_is_false. intros Htrue. apply Hnot.
    now apply existsb_eq_str_In. }
  unfold handle, discord_callback, bind at 1. rewrite Hresolve.
  unfold bind. rewrite Hrole, Hfalse. reflexivity.
Qed.

Lemma role_check_membership_witness :
  exists has_required_role : bool,
    role_verification Example.cfg Example.granted (JStr "42")
      (Example.resolved_trace Example.cfg)
    = ((Example.resolved_trace Example.cfg ++ [Example.member_request])%list,
       Val has_required_role) /\
    (has_required_role = true <->
     In (JStr REQUIRED_ROLE_ID) [JStr "A"; JStr REQUIRED_ROLE_ID; JStr "B"]) /\
    (~ In (JStr REQUIRED_ROLE_ID) [JStr "A"; JStr REQUIRED_ROLE_ID; JStr "B"] ->
     handle Example.cfg Example.granted Example.args
     = ((Example.resolved_trace Example.cfg ++ [Example.member_request])%list,
        inl (redirect_status "unauthorized_role"))).
Proof.
  apply (role_check_membership Example.cfg Example.granted Example.args
           (Example.resolved_trace Example.cfg) Example.al_identity 200
           (Example.member [JStr "A"; JStr REQUIRED_ROLE_ID; JStr "B"])
           [JStr "A"; JStr REQUIRED_ROLE_ID; JStr "B"]).
  - reflexivity.
  - reflexivity.
  - reflexivity.
  - reflexivity.
  - lia.
  - reflexivity.
Defined.

(** C9: after a 2xx member answer whose body is a dict without a [roles]
    key, the role set is taken as empty: [has_required_role] stays false
    and the callback redirects with status [unauthorized_role]. *)
Theorem missing_roles_field_unauthorized (cfg : Config) (world : World)
    (args : list (string * string)) (tr : list event) (user : identity)
    (status_code : Z) (fields : list (string * json)) :
  Py.truthy_opt (REQUIRED_GUILD_ID cfg) = true ->
  Py.truthy_opt (DISCORD_BOT_TOKEN cfg) = true ->
  resolve_user cfg world args [] = (tr, Val user) ->
  get world (member_url cfg (discord_user_id user)) (bot_headers cfg)
    = Reply status_code (Some (JObj fields)) ->
  200 <= status_code < 300 ->
  Py.lookup "roles" fields = None ->
  Py.get (JObj fields) "roles" (JArr []) = inl (JArr []) /\
  role_verification cfg world (discord_user_id user) tr
  = ((tr ++ [EvGet (member_url cfg (discord_user_id user)) (bot_headers cfg)])%list,
     Val false) /\
  handle cfg world args
  = ((tr ++ [EvGet (member_url cfg (discord_user_id user)) (bot_headers cfg)])%list,
     inl (redirect_status "unauthorized_role")).
Proof.
  intros Hguild Hbot Hresolve Hget Hstatus Hlookup.
  assert (Hroles : Py.get (JObj fields) "roles" (JArr []) = inl (JArr []))
    by (cbn [Py.get]; unfold Py.item; now rewrite Hlookup).
  pose proof (role_verification_reply cfg world (discord_user_id user) tr
                status_code (JObj fields) Hguild Hbot Hget Hstatus) as Hrole.
  rewrite Hroles in Hrole. cbn [rbind Py.contains existsb] in Hrole.
  split; [exact Hroles |]. split; [exact Hrole |].
  unfold handle, discord_callback, bind at 1. rewrite Hresolve.
  unfold bind. rewrite Hrole. reflexivity.
Qed.

Lemma missing_roles_field_unauthorized_witness :
  Py.get Example.member_without_roles "roles" (JArr []) = inl (JArr []) /\
  role_verification Example.cfg Example.no_roles (JStr "42")
    (Example.resolved_trace Example.cfg)
  = ((Example.resolved_trace Example.cfg ++ [Example.member_request])%list,
     Val false) /\
  handle Example.cfg Example.no_roles Example.args
  = ((Example.resolved_trace Example.cfg ++ [Example.member_request])%list,
     inl (redirect_status "unauthorized_role")).
Proof.
  apply (missing_roles_field_unauthorized Example.cfg Example.no_roles
           Example.args (Example.resolved_trace Example.cfg)
           Example.al_identity 200 [("user", JObj [("id", JStr "42")])]).
  - reflexivity.
  - reflexivity.
  - reflexivity.
  - reflexivity.
  - lia.
  - reflexivity.
Defined.

(** The two scenarios of a member with and without the required role,
    from the code to the last redirect. *)
Example callback_granted :
  handle Example.cfg Example.granted Example.args
  = ((Example.resolved_trace Example.cfg
      ++ [Example.member_request;
          EvCreateCustomToken (JStr "42")
            [("discord_username", JStr "Al");
             ("discord_pfp", JStr "https://cdn.discordapp.com/embed/avatars/2.png");
             ("has_role", JBool true)]])%list,
     inl (redirect_url_for "frontend_redirect"
            [("token", JStr "signed123");
             ("discord_user_id", JStr "42");
             ("discord_username", JStr "Al");
             ("discord_pfp", JStr "https://cdn.discordapp.com/embed/avatars/2.png");
             ("status", JStr "success")])).
Proof. reflexivity. Qed.

Example callback_denied :
  handle Example.cfg Example.denied Example.args
  = ((Example.resolved_trace Example.cfg ++ [Example.member_request])%list,
     inl (redirect_status "unauthorized_role")).
Proof. reflexivity. Qed.

(** ** A missing user id *)

(** With a custom avatar in the body, a missing id reaches the test of
    line 140. *)
Lemma missing_user_id_with_avatar (cfg : Config) :
  snd (handle cfg
         (Example.provider (JObj [("username", JStr "bar"); ("avatar", JStr "a1b2")])
            (Example.member []) None)
         Example.args)
  = inl (redirect_status "error_missing_user_id").
Proof. reflexivity. Qed.

(** C2: a 200 user-info answer without an id, without a custom avatar and
    without a discriminator makes line 134 raise [TypeError] from
    [int(None)]; with the empty id it raises [ValueError] from [int('')].
    Neither is a [RequestException], so the exception leaves the view
    function and no redirect with [error_missing_user_id] is produced. *)
Theorem missing_user_id_raises (cfg : Config) :
  snd (handle cfg
         (Example.provider (JObj [("username", JStr "bar")])
            (Example.member []) None)
         Example.args)
  = inr TypeError /\
  snd (handle cfg
         (Example.provider (JObj [("id", JStr ""); ("username", JStr "bar")])
            (Example.member []) None)
         Example.args)
  = inr ValueError.
Proof. split; reflexivity. Qed.

(** ** The call of the token issuer *)

(** C6, as stated, fails: a callback can end with a failure status after
    it has called the token issuer, namely when that call raises. *)
Lemma issuer_called_before_error_firebase_token :
  ~ (forall (cfg : Config) (world : World) (args : list (string * string))
            (r : response),
        snd (handle cfg world args) = inl r ->
        status_of r <> Some (JStr "success") ->
        existsb is_create_custom_token (fst (handle cfg world args)) = false).
Proof.
  intros H.
  specialize (H Example.cfg Example.issuer_down Example.args
                (redirect_status "error_firebase_token") eq_refl).
  assert (Hneq : status_of (redirect_status "error_firebase_token")
                 <> Some (JStr "success")) by discriminate.
  specialize (H Hneq). vm_compute in H. discriminate H.
Qed.

(** C6, amended: every call of the token issuer in a callback comes last
    in the trace, after the role verification has given true, with the
    user id as subject and the display name, the avatar URL and
    [has_role = True] as claims; and a callback that ends with a failure
    status other than [error_firebase_token], or with an exception, has
    not called the token issuer. *)
Theorem trust_token_only_after_role_verified (cfg : Config) (world : World)
    (args : list (string * string)) :
  (forall uid claims,
      In (EvCreateCustomToken uid claims) (fst (handle cfg world args)) ->
      exists tr user tr',
        resolve_user cfg world args [] = (tr, Val user) /\
        role_verification cfg world (discord_user_id user) tr = (tr', Val true) /\
        existsb is_create_custom_token tr' = false /\
        fst (handle cfg world args)
          = (tr' ++ [EvCreateCustomToken uid claims])%list /\
        uid = discord_user_id user /\
        claims = [("discord_username", display_name user);
                  ("discord_pfp", JStr (profile_picture_url user));
                  ("has_role", JBool true)]) /\
  (forall r,
      snd (handle cfg world args) = inl r ->
      status_of r <> Some (JStr "success") ->
      status_of r <> Some (JStr "error_firebase_token") ->
      existsb is_create_custom_token (fst (handle cfg world args)) = false) /\
  (forall e,
      snd (handle cfg world args) = inr e ->
      existsb is_create_custom_token (fst (handle cfg world args)) = false).
Proof.
  destruct (handle cfg world args) as [trh out] eqn:Hhandle. cbn [fst snd].
  unfold handle, discord_callback in Hhandle. unfold bind at 1 in Hhandle.
  destruct (quiet_resolve_user cfg world args []) as [es [Hes Hq]].
  destruct (resolve_user cfg world args []) as [tr [user | r | e]] eqn:Hresolve;
    simpl in Hes; subst tr.
  2, 3: injection Hhandle as <- <-; (split; [| split]);
        [| intros; assumption ..];
        intros uid claims Hin; apply In_create_custom_token in Hin; congruence.
  unfold bind in Hhandle.
  destruct (quiet_role_verification cfg world (discord_user_id user) es)
    as [es' [Hes' Hq']].
  assert (Hquiet : existsb is_create_custom_token (es ++ es')%list = false)
    by (rewrite existsb_app, Hq, Hq'; reflexivity).
  destruct (role_verification cfg world (discord_user_id user) es)
    as [tr' [[|] | r | e]] eqn:Hrole; simpl in Hes'; subst tr'.
  2, 3, 4: injection Hhandle as <- <-; (split; [| split]);
           [| intros; assumption ..];
           intros uid claims Hin; apply In_create_custom_token in Hin; congruence.
  cbn [negb] in Hhandle. unfold create_firebase_token in Hhandle.
  assert (Htrace : trh = ((es ++ es') ++
                          [EvCreateCustomToken (discord_user_id user)
                             (custom_claims user)])%list)
    by (destruct (create_custom_token world (discord_user_id user)
                    (custom_claims user)); now injection Hhandle as <- _).
  split; [| split].
  - intros uid claims Hin. rewrite Htrace in Hin.
    apply in_app_or in Hin as [Hin | [Heq | []]].
    + apply In_create_custom_token in Hin. congruence.
    + injection Heq as <- <-.
      exists es, user, (es ++ es')%list.
      repeat split; try assumption; reflexivity.
  - intros r -> Hsuccess Hfirebase. exfalso.
    destruct (create_custom_token world (discord_user_id user)
                (custom_claims user));
      injection Hhandle as _ <-;
      [apply Hsuccess | apply Hfirebase]; reflexivity.
  - intros e ->.
    destruct (create_custom_token world (discord_user_id user)
                (custom_claims user)); discriminate Hhandle.
Qed.

Lemma trust_token_only_after_role_verified_witness :
  exists tr user tr',
    resolve_user Example.cfg Example.granted Example.args [] = (tr, Val user) /\
    role_verification Example.cfg Example.granted (discord_user_id user) tr
    = (tr', Val true) /\
    existsb is_create_custom_token tr' = false /\
    fst (handle Example.cfg Example.granted Example.args)
    = (tr' ++ [EvCreateCustomToken (JStr "42")
                 [("discord_username", JStr "Al");
                  ("discord_pfp",
                   JStr "https://cdn.discordapp.com/embed/avatars/2.png");
                  ("has_role", JBool true)]])%list /\
    JStr "42" = discord_user_id user /\
    [("discord_username", JStr "Al");
     ("discord_pfp", JStr "https://cdn.discordapp.com/embed/avatars/2.png");
     ("has_role", JBool true)]
    = [("discord_username", display_name user);
       ("discord_pfp", JStr (profile_picture_url user));
       ("has_role", JBool true)].
Proof.
  apply (proj1 (trust_token_only_after_role_verified Example.cfg
                  Example.granted Example.args)).
  vm_compute. right. right. right. left. reflexivity.
Defined.

(** ** The redirect page *)

Lemma is_prefix_app (p s : string) : Py.is_prefix p (p ++ s) = true.
Proof.
  induction p as [| c p IH]; simpl; [reflexivity |].
  now rewrite Ascii.eqb_refl, IH.
Qed.

Lemma is_substring_here (p s : string) : Py.is_substring p (p ++ s) = true.
Proof.
  destruct (p ++ s) eqn:E; simpl; rewrite <- E, is_prefix_app; reflexivity.
Qed.

Lemma is_substring_skip (a p s : string) :
  Py.is_substring p s = true -> Py.is_substring p (a ++ s) = true.
Proof.
  intros H. induction a as [| c a IH]; simpl; [assumption |].
  rewrite IH. apply orb_true_r.
Qed.

Lemma args_get_missing (args : list (string * string)) (k default : string) :
  Py.lookup k args = None -> args_get args k default = default.
Proof. unfold args_get. now intros ->. Qed.

Lemma args_get_present (args : list (string * string)) (k default v : string) :
  Py.lookup k args = Some v -> args_get args k default = v.
Proof. unfold args_get. now intros ->. Qed.

(** C10: whatever the query parameters, the URL of the page has the five
    parameters [token], [discord_user_id], [discord_username],
    [discord_pfp] and [status] in its fragment; each carries the value of
    the query parameter of that name, a missing [status] reads "error",
    which is none of the statuses of the callback, and each other missing
    parameter reads as the empty text.  The page holds that URL. *)
Theorem frontend_redirect_defaults (args : list (string * string)) :
  exists token discord_user_id discord_username discord_pfp status : string,
    redirect_url args
    = frontend_base_url ++ "#token=" ++ token
        ++ "&discord_user_id=" ++ discord_user_id
        ++ "&discord_username=" ++ discord_username
        ++ "&discord_pfp=" ++ discord_pfp
        ++ "&status=" ++ status /\
    token = match Py.lookup "token" args with Some v => v | None => "" end /\
    discord_user_id
    = match Py.lookup "discord_user_id" args with Some v => v | None => "" end /\
    discord_username
    = match Py.lookup "discord_username" args with Some v => v | None => "" end /\
    discord_pfp
    = match Py.lookup "discord_pfp" args with Some v => v | None => "" end /\
    status
    = match Py.lookup "status" args with Some v => v | None => "error" end /\
    ~ In "error" statuses /\
    Py.is_substring (redirect_url args) (frontend_redirect args) = true.
Proof.
  exists (args_get args "token" ""), (args_get args "discord_user_id" ""),
    (args_get args "discord_username" ""), (args_get args "discord_pfp" ""),
    (args_get args "status" "error").
  repeat split.
  - intros Hin. simpl in Hin.
    repeat (destruct Hin as [Hin | Hin]; [discriminate Hin |]). exact Hin.
  - unfold frontend_redirect.
    do 2 apply is_substring_skip. apply is_substring_here.
Qed.

(** * The callback, path by path *)

(** ** What each block does, by the answer it gets *)

Lemma user_info_block_not_RequestException (user_info : json) :
  user_info_block user_info <> inr RequestException.
Proof.
  destruct user_info as [| b | z | s | items | fields]; try discriminate.
  unfold user_info_block. cbn [Py.get rbind].
  destruct (Py.truthy (Py.item fields "avatar" JNull)); [discriminate |].
  destruct (Py.truthy (Py.item fields "discriminator" JNull)
            && negb (Py.eq_str "0" (Py.item fields "discriminator" JNull))).
  - destruct (Py.item fields "discriminator" JNull) as [| b | z | s | l | l];
      cbn [Py.int rbind]; try discriminate.
    destruct (Py.int_of_string s); discriminate.
  - destruct (Py.item fields "id" JNull) as [| b | z | s | l | l];
      cbn [Py.int rbind]; try discriminate.
    destruct (Py.int_of_string s); discriminate.
Qed.

Lemma exchange_code_run (cfg : Config) (world : World) (code : option string)
    (tr : list event) :
  exchange_code cfg world code tr =
    ((tr ++ [token_request cfg code])%list,
     if is_failure (token_reply cfg world code)
     then Ret (redirect_status "error_token_exchange")
     else match token_reply cfg world code with
          | Reply _ (Some token_json) =>
              match Py.get token_json "access_token" JNull with
              | inl access_token =>
                  if Py.truthy access_token then Val access_token
                  else Ret (redirect_status "error_no_access_token")
              | inr e => Exc e
              end
          | _ => Ret (redirect_status "error_token_exchange")
          end).
Proof.
  unfold exchange_code, token_request, token_reply.
  fold token_url. fold (token_data cfg code). fold token_headers.
  unfold bind at 1.
  unfold try_except_RequestException, bind at 1, requests_post.
  destruct (post world token_url (token_data cfg code) token_headers)
    as [| status_code [token_json |]]; cbn [is_failure].
  - reflexivity.
  - unfold bind at 1, raise_for_status.
    destruct ((400 <=? status_code) && (status_code <? 600)); [reflexivity |].
    unfold ret at 1, bind, response_json, ret, lift.
    destruct token_json as [| b | z | s | l | l]; try reflexivity.
    cbn [Py.get]. now destruct (Py.truthy _).
  - unfold bind at 1, raise_for_status.
    destruct ((400 <=? status_code) && (status_code <? 600)); reflexivity.
Qed.

Lemma fetch_user_info_run (world : World) (access_token : json)
    (tr : list event) :
  fetch_user_info world access_token tr =
    ((tr ++ [user_request access_token])%list,
     if is_failure (user_reply world access_token)
     then Ret (redirect_status "error_fetch_user_info")
     else match user_reply world access_token with
          | Reply _ (Some user_info) =>
              match user_info_block user_info with
              | inl user =>
                  if Py.truthy (discord_user_id user) then Val user
                  else Ret (redirect_status "error_missing_user_id")
              | inr e => Exc e
              end
          | _ => Ret (redirect_status "error_fetch_user_info")
          end).
Proof.
  unfold fetch_user_info, user_request, user_reply.
  unfold bind at 1.
  unfold try_except_RequestException, bind at 1, requests_get.
  destruct (get world (DISCORD_API_BASE_URL ++ "/users/@me")
              [("Authorization", "Bearer " ++ Py.str access_token)])
    as [| status_code [user_info |]]; cbn [is_failure].
  - reflexivity.
  - unfold bind at 1, raise_for_status.
    destruct ((400 <=? status_code) && (status_code <? 600)); [reflexivity |].
    unfold ret at 1, bind, response_json, ret, lift.
    pose proof (user_info_block_not_RequestException user_info) as Hexc.
    destruct (user_info_block user_info) as [user | [| | |]];
      try reflexivity; [| congruence].
    now destruct (Py.truthy (discord_user_id user)).
  - unfold bind at 1, raise_for_status.
    destruct ((400 <=? status_code) && (status_code <? 600)); reflexivity.
Qed.

Lemma role_verification_run (cfg : Config) (world : World) (id : json)
    (tr : list event) :
  role_verification cfg world id tr =
    if Py.truthy_opt (REQUIRED_GUILD_ID cfg) && Py.truthy_opt (DISCORD_BOT_TOKEN cfg)
    then
      ((tr ++ [member_request cfg id])%list,
       if is_failure (member_reply cfg world id)
       then Ret (redirect_status "error_role_check_failed")
       else match member_reply cfg world id with
            | Reply _ (Some member_data) =>
                match rbind (Py.get member_data "roles" (JArr []))
                            (Py.contains REQUIRED_ROLE_ID) with
                | inl found => Val found
                | inr e => Exc e
                end
            | _ => Ret (redirect_status "error_role_check_failed")
            end)
    else (tr, Ret (redirect_status "error_role_check_config_missing")).
Proof.
  unfold role_verification, member_request, member_reply.
  destruct (Py.truthy_opt (REQUIRED_GUILD_ID cfg)
            && Py.truthy_opt (DISCORD_BOT_TOKEN cfg)); [| reflexivity].
  fold (member_url cfg id). fold (bot_headers cfg).
  unfold try_except_RequestException, bind at 1, requests_get.
  destruct (get world (member_url cfg id) (bot_headers cfg))
    as [| status_code [member_data |]]; cbn [is_failure].
  - reflexivity.
  - unfold bind at 1, raise_for_status.
    destruct ((400 <=? status_code) && (status_code <? 600)); [reflexivity |].
    unfold ret at 1, bind, response_json, ret, lift.
    destruct member_data as [| b | z | s | l | fields]; try reflexivity.
    cbn [Py.get rbind].
    destruct (Py.item fields "roles" (JArr [])) as [| b | z | s | l | l];
      cbn [Py.contains]; try reflexivity;
      match goal with |- context [if ?c then _ else _] => now destruct c end.
  - unfold bind at 1, raise_for_status.
    destruct ((400 <=? status_code) && (status_code <? 600)); reflexivity.
Qed.

(** ** The callback as a composition of its blocks *)

Lemma resolve_user_run (cfg : Config) (world : World)
    (args : list (string * string)) (tr : list event) :
  resolve_user cfg world args tr =
    if Py.truthy_opt (Py.lookup "code" args) then
      match exchange_code cfg world (Py.lookup "code" args) tr with
      | (tr', Val access_token) => fetch_user_info world access_token tr'
      | (tr', Ret r) => (tr', Ret r)
      | (tr', Exc e) => (tr', Exc e)
      end
    else (tr, Ret (redirect_status "error_no_code")).
Proof.
  unfold resolve_user.
  destruct (Py.truthy_opt (Py.lookup "code" args)); reflexivity.
Qed.

Lemma handle_run (cfg : Config) (world : World) (args : list (string * string)) :
  handle cfg world args =
    match resolve_user cfg world args [] with
    | (tr, Val user) =>
        match role_verification cfg world (discord_user_id user) tr with
        | (tr', Val true) =>
            ((tr' ++ [issue_request user])%list,
             inl match create_custom_token world (discord_user_id user)
                         (custom_claims user) with
                 | Some firebase_custom_token =>
                     redirect_success firebase_custom_token user
                 | None => redirect_status "error_firebase_token"
                 end)
        | (tr', Val false) => (tr', inl (redirect_status "unauthorized_role"))
        | (tr', Ret r) => (tr', inl r)
        | (tr', Exc e) => (tr', inr e)
        end
    | (tr, Ret r) => (tr, inl r)
    | (tr, Exc e) => (tr, inr e)
    end.
Proof.
  unfold handle, discord_callback. unfold bind at 1.
  destruct (resolve_user cfg world args []) as [tr [user | r | e]];
    try reflexivity.
  unfold bind.
  destruct (role_verification cfg world (discord_user_id user) tr)
    as [tr' [[|] | r | e]]; try reflexivity.
  cbn [negb]. unfold create_firebase_token, issue_request, redirect_success.
  destruct (create_custom_token world (discord_user_id user) (custom_claims user));
    reflexivity.
Qed.

Lemma get_raises_AttributeError (d : json) (k : string) (default : json) (e : pyexc) :
  Py.get d k default = inr e -> e = AttributeError.
Proof. destruct d; simpl; congruence. Qed.

Lemma contains_raises_TypeError (s : string) (v : json) (e : pyexc) :
  Py.contains s v = inr e -> e = TypeError.
Proof. destruct v; simpl; congruence. Qed.

Lemma roles_search_not_RequestException (member_data : json) (e : pyexc) :
  rbind (Py.get member_data "roles" (JArr [])) (Py.contains REQUIRED_ROLE_ID)
    = inr e ->
  e <> RequestException.
Proof.
  destruct (Py.get member_data "roles" (JArr [])) as [roles | e'] eqn:Hget;
    cbn [rbind]; intros H.
  - apply contains_raises_TypeError in H. now subst.
  - injection H as <-. apply get_raises_AttributeError in Hget. now subst.
Qed.

Lemma not_failure_reply (r : http_result) :
  is_failure r = false -> exists status_code body, r = Reply status_code (Some body).
Proof.
  destruct r as [| status_code [body |]]; try discriminate. eauto.
Qed.

(** Every run of the callback follows one of the paths. *)
Lemma handle_path (cfg : Config) (world : World) (args : list (string * string)) :
  path cfg world args (fst (handle cfg world args)) (snd (handle cfg world args)).
Proof.
  rewrite handle_run.
  pose proof (resolve_user_run cfg world args []) as Hres.
  destruct (Py.truthy_opt (Py.lookup "code" args)) eqn:Hcode.
  2: { rewrite Hres. now apply path_no_code. }
  pose proof (exchange_code_run cfg world (Py.lookup "code" args) []) as Hex.
  cbn [app] in Hex.
  destruct (is_failure (token_reply cfg world (Py.lookup "code" args))) eqn:Hfail.
  { rewrite Hex in Hres. rewrite Hres. now apply path_token_exchange. }
  destruct (not_failure_reply _ Hfail) as [sc [token_json Hreply]].
  rewrite Hreply in Hex.
  destruct (Py.get token_json "access_token" JNull) as [access_token | e] eqn:Hget.
  2: { rewrite Hex in Hres. rewrite Hres.
       pose proof (get_raises_AttributeError _ _ _ _ Hget) as ->.
       now apply (path_token_not_dict _ _ _ sc token_json). }
  destruct (Py.truthy access_token) eqn:Htoken.
  2: { rewrite Hex in Hres. rewrite Hres.
       now apply (path_no_access_token _ _ _ sc token_json access_token). }
  rewrite Hex in Hres.
  pose proof (fetch_user_info_run world access_token
                [token_request cfg (Py.lookup "code" args)]) as Hfetch.
  cbn [app] in Hfetch. rewrite Hfetch in Hres.
  destruct (is_failure (user_reply world access_token)) eqn:Hufail.
  { rewrite Hres. now apply path_fetch_user_info. }
  destruct (not_failure_reply _ Hufail) as [usc [user_info Hureply]].
  rewrite Hureply in Hres.
  destruct (user_info_block user_info) as [user | e] eqn:Hblock.
  2: { rewrite Hres.
       apply (path_user_info_raises _ _ _ access_token usc user_info e);
         try assumption.
       intros ->. now apply (user_info_block_not_RequestException user_info). }
  destruct (Py.truthy (discord_user_id user)) eqn:Hid.
  2: { rewrite Hres.
       now apply (path_missing_user_id _ _ _ access_token usc user_info user). }
  rewrite Hres.
  rewrite role_verification_run. cbn [app].
  destruct (Py.truthy_opt (REQUIRED_GUILD_ID cfg)
            && Py.truthy_opt (DISCORD_BOT_TOKEN cfg)) eqn:Hcfg.
  2: { now apply (path_config_missing _ _ _ access_token user). }
  destruct (is_failure (member_reply cfg world (discord_user_id user))) eqn:Hmfail.
  { now apply (path_role_check_failed _ _ _ access_token user). }
  destruct (not_failure_reply _ Hmfail) as [msc [member_data Hmreply]].
  rewrite Hmreply.
  destruct (rbind (Py.get member_data "roles" (JArr []))
                  (Py.contains REQUIRED_ROLE_ID)) as [[|] | e] eqn:Hroles.
  - cbn [app fst snd].
    apply (path_issued _ _ _ access_token user msc member_data); try assumption.
    reflexivity.
  - now apply (path_unauthorized _ _ _ access_token user msc member_data).
  - apply (path_roles_raise _ _ _ access_token user msc member_data e);
      try assumption.
    now apply (roles_search_not_RequestException member_data).
Qed.

(** * Further properties of the callback *)

(** ** The token exchange *)

(** X1: with a code, when the token request fails (the call itself, a 4xx
    or 5xx status, or a body that is not JSON), the callback redirects
    with status [error_token_exchange] after that one call. *)
Theorem token_exchange_failure (cfg : Config) (world : World)
    (args : list (string * string)) :
  Py.truthy_opt (Py.lookup "code" args) = true ->
  is_failure (token_reply cfg world (Py.lookup "code" args)) = true ->
  handle cfg world args
  = ([token_request cfg (Py.lookup "code" args)],
     inl (redirect_status "error_token_exchange")).
Proof.
  intros Hcode Hfail.
  rewrite handle_run, resolve_user_run, Hcode, exchange_code_run, Hfail.
  reflexivity.
Qed.

Lemma token_exchange_failure_witness :
  handle Example.cfg
    (Example.answers (Reply 401 (Some (JObj [("error", JStr "invalid_client")])))
       Example.user_ok Example.member_ok (Some "signed123"))
    Example.args
  = ([token_request Example.cfg (Some "abc")],
     inl (redirect_status "error_token_exchange")).
Proof.
  apply (token_exchange_failure Example.cfg
           (Example.answers
              (Reply 401 (Some (JObj [("error", JStr "invalid_client")])))
              Example.user_ok Example.member_ok (Some "signed123"))
           Example.args).
  - reflexivity.
  - reflexivity.
Defined.

(** X2: with a code, when the token answer is a dict whose
    [access_token] is missing, [None] or empty (and the status is not 4xx
    or 5xx), the callback redirects with status [error_no_access_token]
    after that one call. *)
Theorem no_access_token (cfg : Config) (world : World)
    (args : list (string * string)) (status_code : Z)
    (fields : list (string * json)) :
  Py.truthy_opt (Py.lookup "code" args) = true ->
  token_reply cfg world (Py.lookup "code" args)
    = Reply status_code (Some (JObj fields)) ->
  (400 <=? status_code) && (status_code <? 600) = false ->
  Py.truthy (Py.item fields "access_token" JNull) = false ->
  handle cfg world args
  = ([token_request cfg (Py.lookup "code" args)],
     inl (redirect_status "error_no_access_token")).
Proof.
  intros Hcode Hreply Hstatus Htoken.
  rewrite handle_run, resolve_user_run, Hcode, exchange_code_run, Hreply.
  cbn [is_failure Py.get app]. rewrite Hstatus, Htoken. reflexivity.
Qed.

Lemma no_access_token_witness :
  handle Example.cfg
    (Example.answers (Reply 200 (Some (JObj [("token_type", JStr "Bearer")])))
       Example.user_ok Example.member_ok (Some "signed123"))
    Example.args
  = ([token_request Example.cfg (Some "abc")],
     inl (redirect_status "error_no_access_token")).
Proof.
  apply (no_access_token Example.cfg
           (Example.answers
              (Reply 200 (Some (JObj [("token_type", JStr "Bearer")])))
              Example.user_ok Example.member_ok (Some "signed123"))
           Example.args 200 [("token_type", JStr "Bearer")]).
  - reflexivity.
  - reflexivity.
  - reflexivity.
  - reflexivity.
Defined.

(** ** The user request *)

(** X3: once the token exchange has given an access token, a failing
    user request (the call itself, a 4xx or 5xx status, or a body that is
    not JSON) makes the callback redirect with status
    [error_fetch_user_info]; the user request is the last call. *)
Theorem fetch_user_info_failure (cfg : Config) (world : World)
    (args : list (string * string)) (tr : list event) (access_token : json) :
  Py.truthy_opt (Py.lookup "code" args) = true ->
  exchange_code cfg world (Py.lookup "code" args) [] = (tr, Val access_token) ->
  is_failure (user_reply world access_token) = true ->
  handle cfg world args
  = ((tr ++ [user_request access_token])%list,
     inl (redirect_status "error_fetch_user_info")).
Proof.
  intros Hcode Hexchange Hfail.
  rewrite handle_run, resolve_user_run, Hcode, Hexchange, fetch_user_info_run, Hfail.
  reflexivity.
Qed.

Lemma fetch_user_info_failure_witness :
  handle Example.cfg
    (Example.answers Example.token_ok Fault Example.member_ok (Some "signed123"))
    Example.args
  = (([token_request Example.cfg (Some "abc")] ++ [user_request (JStr "t1")])%list,
     inl (redirect_status "error_fetch_user_info")).
Proof.
  apply (fetch_user_info_failure Example.cfg
           (Example.answers Example.token_ok Fault Example.member_ok
              (Some "signed123"))
           Example.args [token_request Example.cfg (Some "abc")] (JStr "t1")).
  - reflexivity.
  - reflexivity.
  - reflexivity.
Defined.

(** X4: once the token exchange has given an access token and the user
    request has been answered, an exception raised while the identity is
    read from the body ([AttributeError] from [get] on a body that is not a
    dict, [TypeError] or [ValueError] from [int]) is not caught: it leaves
    the callback, after the user request and before any role check. *)
Theorem user_info_exception_escapes (cfg : Config) (world : World)
    (args : list (string * string)) (tr : list event) (access_token : json)
    (status_code : Z) (user_info : json) (e : pyexc) :
  Py.truthy_opt (Py.lookup "code" args) = true ->
  exchange_code cfg world (Py.lookup "code" args) [] = (tr, Val access_token) ->
  user_reply world access_token = Reply status_code (Some user_info) ->
  (400 <=? status_code) && (status_code <? 600) = false ->
  user_info_block user_info = inr e ->
  handle cfg world args = ((tr ++ [user_request access_token])%list, inr e).
Proof.
  intros Hcode Hexchange Hreply Hstatus Hblock.
  rewrite handle_run, resolve_user_run, Hcode, Hexchange, fetch_user_info_run, Hreply.
  cbn [is_failure]. rewrite Hstatus, Hblock. reflexivity.
Qed.

Lemma user_info_exception_escapes_witness :
  handle Example.cfg
    (Example.answers Example.token_ok
       (Reply 200 (Some (JObj [("id", JStr "42"); ("discriminator", JStr "12a4")])))
       Example.member_ok (Some "signed123"))
    Example.args
  = (([token_request Example.cfg (Some "abc")] ++ [user_request (JStr "t1")])%list,
     inr ValueError).
Proof.
  apply (user_info_exception_escapes Example.cfg
           (Example.answers Example.token_ok
              (Reply 200
                 (Some (JObj [("id", JStr "42"); ("discriminator", JStr "12a4")])))
              Example.member_ok (Some "signed123"))
           Example.args [token_request Example.cfg (Some "abc")] (JStr "t1") 200
           (JObj [("id", JStr "42"); ("discriminator", JStr "12a4")]) ValueError).
  - reflexivity.
  - reflexivity.
  - reflexivity.
  - reflexivity.
  - reflexivity.
Defined.

(** ** The role check and the token issuer *)

(** X5: with the configuration present, a failing member request (the
    call itself, a 4xx or 5xx status such as 404 for a user who is not in
    the guild, or a body that is not JSON) makes the callback redirect
    with status [error_role_check_failed]; the member request is the last
    call, so the token issuer is not called. *)
Theorem role_check_failure (cfg : Config) (world : World)
    (args : list (string * string)) (tr : list event) (user : identity) :
  Py.truthy_opt (REQUIRED_GUILD_ID cfg) = true ->
  Py.truthy_opt (DISCORD_BOT_TOKEN cfg) = true ->
  resolve_user cfg world args [] = (tr, Val user) ->
  is_failure (member_reply cfg world (discord_user_id user)) = true ->
  handle cfg world args
  = ((tr ++ [member_request cfg (discord_user_id user)])%list,
     inl (redirect_status "error_role_check_failed")).
Proof.
  intros Hguild Hbot Hresolve Hfail.
  rewrite handle_run, Hresolve, role_verification_run, Hguild, Hbot, Hfail.
  reflexivity.
Qed.

Lemma role_check_failure_witness :
  handle Example.cfg
    (Example.answers Example.token_ok Example.user_ok
       (Reply 404 (Some (JObj [("message", JStr "Unknown Member")])))
       (Some "signed123"))
    Example.args
  = ((Example.resolved_trace Example.cfg
      ++ [member_request Example.cfg (discord_user_id Example.al_identity)])%list,
     inl (redirect_status "error_role_check_failed")).
Proof.
  apply (role_check_failure Example.cfg
           (Example.answers Example.token_ok Example.user_ok
              (Reply 404 (Some (JObj [("message", JStr "Unknown Member")])))
              (Some "signed123"))
           Example.args (Example.resolved_trace Example.cfg) Example.al_identity).
  - reflexivity.
  - reflexivity.
  - reflexivity.
  - reflexivity.
Defined.

(** X6: with the configuration present and the member request answered,
    a [roles] value that cannot be searched ([None], a number or a
    boolean: [TypeError]), or a body that is not a dict
    ([AttributeError]), makes the exception leave the callback; the member
    request is the last call. *)
Theorem roles_exception_escapes (cfg : Config) (world : World)
    (args : list (string * string)) (tr : list event) (user : identity)
    (status_code : Z) (member_data : json) (e : pyexc) :
  Py.truthy_opt (REQUIRED_GUILD_ID cfg) = true ->
  Py.truthy_opt (DISCORD_BOT_TOKEN cfg) = true ->
  resolve_user cfg world args [] = (tr, Val user) ->
  member_reply cfg world (discord_user_id user)
    = Reply status_code (Some member_data) ->
  (400 <=? status_code) && (status_code <? 600) = false ->
  rbind (Py.get member_data "roles" (JArr [])) (Py.contains REQUIRED_ROLE_ID)
    = inr e ->
  (e = TypeError \/ e = AttributeError) /\
  handle cfg world args
  = ((tr ++ [member_request cfg (discord_user_id user)])%list, inr e).
Proof.
  intros Hguild Hbot Hresolve Hreply Hstatus Hroles. split.
  - destruct (Py.get member_data "roles" (JArr [])) as [roles | e'] eqn:Hget;
      cbn [rbind] in Hroles.
    + left. now apply (contains_raises_TypeError REQUIRED_ROLE_ID roles).
    + right. injection Hroles as <-.
      now apply (get_raises_AttributeError member_data "roles" (JArr [])).
  - rewrite handle_run, Hresolve, role_verification_run, Hguild, Hbot, Hreply.
    cbn [andb is_failure]. rewrite Hstatus, Hroles. reflexivity.
Qed.

Lemma roles_exception_escapes_witness :
  (TypeError = TypeError \/ TypeError = AttributeError) /\
  handle Example.cfg
    (Example.answers Example.token_ok Example.user_ok
       (Reply 200 (Some (JObj [("roles", JNull)]))) (Some "signed123"))
    Example.args
  = ((Example.resolved_trace Example.cfg
      ++ [member_request Example.cfg (discord_user_id Example.al_identity)])%list,
     inr TypeError).
Proof.
  apply (roles_exception_escapes Example.cfg
           (Example.answers Example.token_ok Example.user_ok
              (Reply 200 (Some (JObj [("roles", JNull)]))) (Some "signed123"))
           Example.args (Example.resolved_trace Example.cfg) Example.al_identity
           200 (JObj [("roles", JNull)]) TypeError).
  - reflexivity.
  - reflexivity.
  - reflexivity.
  - reflexivity.
  - reflexivity.
  - reflexivity.
Defined.

(** X7: with the configuration present, the member request answered and
    the required role among the roles, the token issuer is called once,
    last, with the user id and the claims; the callback redirects with the
    token, the identity and status [success] when the issuer gives a
    token, and with status [error_firebase_token] alone when it raises. *)
Theorem role_granted (cfg : Config) (world : World)
    (args : list (string * string)) (tr : list event) (user : identity)
    (status_code : Z) (member_data : json) (roles : list json) :
  Py.truthy_opt (REQUIRED_GUILD_ID cfg) = true ->
  Py.truthy_opt (DISCORD_BOT_TOKEN cfg) = true ->
  resolve_user cfg world args [] = (tr, Val user) ->
  member_reply cfg world (discord_user_id user)
    = Reply status_code (Some member_data) ->
  (400 <=? status_code) && (status_code <? 600) = false ->
  Py.get member_data "roles" (JArr []) = inl (JArr roles) ->
  In (JStr REQUIRED_ROLE_ID) roles ->
  handle cfg world args
  = ((tr ++ [member_request cfg (discord_user_id user);
             EvCreateCustomToken (discord_user_id user)
               [("discord_username", display_name user);
                ("discord_pfp", JStr (profile_picture_url user));
                ("has_role", JBool true)]])%list,
     inl match create_custom_token world (discord_user_id user)
                 [("discord_username", display_name user);
                  ("discord_pfp", JStr (profile_picture_url user));
                  ("has_role", JBool true)] with
         | Some firebase_custom_token =>
             redirect_url_for "frontend_redirect"
               [("token", JStr firebase_custom_token);
                ("discord_user_id", discord_user_id user);
                ("discord_username", display_name user);
                ("discord_pfp", JStr (profile_picture_url user));
                ("status", JStr "success")]
         | None => redirect_status "error_firebase_token"
         end).
Proof.
  intros Hguild Hbot Hresolve Hreply Hstatus Hroles Hin.
  apply existsb_eq_str_In in Hin.
  rewrite handle_run, Hresolve, role_verification_run, Hguild, Hbot, Hreply.
  cbn [andb is_failure]. rewrite Hstatus, Hroles.
  cbn [rbind Py.contains]. rewrite Hin.
  rewrite <- app_assoc. reflexivity.
Qed.

Lemma role_granted_witness :
  handle Example.cfg Example.issuer_down Example.args
  = ((Example.resolved_trace Example.cfg
      ++ [member_request Example.cfg (JStr "42");
          EvCreateCustomToken (JStr "42")
            [("discord_username", JStr "Al");
             ("discord_pfp", JStr "https://cdn.discordapp.com/embed/avatars/2.png");
             ("has_role", JBool true)]])%list,
     inl (redirect_status "error_firebase_token")).
Proof.
  apply (role_granted Example.cfg Example.issuer_down Example.args
           (Example.resolved_trace Example.cfg) Example.al_identity 200
           (Example.member [JStr REQUIRED_ROLE_ID]) [JStr REQUIRED_ROLE_ID]).
  - reflexivity.
  - reflexivity.
  - reflexivity.
  - reflexivity.
  - reflexivity.
  - reflexivity.
  - left. reflexivity.
Defined.

(** ** What holds on every path *)

Lemma resolve_user_id (cfg : Config) (world : World)
    (args : list (string * string)) (tr tr' : list event) (user : identity) :
  resolve_user cfg world args tr = (tr', Val user) ->
  Py.truthy (discord_user_id user) = true.
Proof.
  intros H. rewrite resolve_user_run in H.
  destruct (Py.truthy_opt (Py.lookup "code" args)); [| discriminate H].
  destruct (exchange_code cfg world (Py.lookup "code" args) tr)
    as [tr1 [access_token | r | e]]; try discriminate H.
  rewrite fetch_user_info_run in H.
  destruct (is_failure (user_reply world access_token)); [discriminate H |].
  destruct (user_reply world access_token) as [| status_code [user_info |]];
    try discriminate H.
  destruct (user_info_block user_info) as [user' | e]; try discriminate H.
  destruct (Py.truthy (discord_user_id user')) eqn:Hid; try discriminate H.
  injection H as _ <-. exact Hid.
Qed.

(** X8: a response of the callback is either the redirect that carries
    the status alone, the status being one of the nine failure statuses,
    or the redirect of line 183 with the issued token, the identity and
    status [success]. *)
Theorem response_shape (cfg : Config) (world : World)
    (args : list (string * string)) (r : response) :
  snd (handle cfg world args) = inl r ->
  (exists s, r = redirect_status s /\ In s statuses /\ s <> "success") \/
  (exists firebase_custom_token user,
      r = redirect_url_for "frontend_redirect"
            [("token", JStr firebase_custom_token);
             ("discord_user_id", discord_user_id user);
             ("discord_username", display_name user);
             ("discord_pfp", JStr (profile_picture_url user));
             ("status", JStr "success")]).
Proof.
  pose proof (handle_path cfg world args) as Hpath.
  destruct (handle cfg world args) as [tr out]. cbn [fst snd] in *.
  intros ->.
  inversion Hpath; subst;
    try (left; eexists; split; [reflexivity |];
         split; [simpl; tauto | discriminate]).
  destruct (create_custom_token world (discord_user_id user) (custom_claims user))
    as [firebase_custom_token |].
  - right. exists firebase_custom_token, user. reflexivity.
  - left. eexists. split; [reflexivity |].
    split; [simpl; tauto | discriminate].
Qed.

Lemma response_shape_witness :
  (exists s,
      redirect_status "unauthorized_role" = redirect_status s /\
      In s statuses /\ s <> "success") \/
  (exists firebase_custom_token user,
      redirect_status "unauthorized_role"
      = redirect_url_for "frontend_redirect"
          [("token", JStr firebase_custom_token);
           ("discord_user_id", discord_user_id user);
           ("discord_username", display_name user);
           ("discord_pfp", JStr (profile_picture_url user));
           ("status", JStr "success")]).
Proof.
  apply (response_shape Example.cfg Example.denied Example.args
           (redirect_status "unauthorized_role")).
  reflexivity.
Defined.

(** X9: no [RequestException] leaves the callback: the ones that the
    three requests, [raise_for_status] and [json] raise are all turned
    into a redirect, and nothing outside the [try] blocks raises one. *)
Theorem no_RequestException_escapes (cfg : Config) (world : World)
    (args : list (string * string)) (e : pyexc) :
  snd (handle cfg world args) = inr e ->
  e <> RequestException.
Proof.
  pose proof (handle_path cfg world args) as Hpath.
  destruct (handle cfg world args) as [tr out]. cbn [fst snd] in *.
  intros ->.
  inversion Hpath; subst; try assumption; discriminate.
Qed.

Lemma no_RequestException_escapes_witness : TypeError <> RequestException.
Proof.
  apply (no_RequestException_escapes Example.cfg
           (Example.answers Example.token_ok
              (Reply 200 (Some (JObj [("username", JStr "bar")])))
              Example.member_ok (Some "signed123"))
           Example.args TypeError).
  reflexivity.
Defined.

(** X10: the calls of a callback are an initial part of the sequence
    token request, user request, member request, issuer call: at most four
    calls, each at most once, in this order, the token request carrying
    the [code] parameter as it came. *)
Theorem call_order (cfg : Config) (world : World) (args : list (string * string)) :
  exists (access_token : json) (user : identity) (n : nat),
    fst (handle cfg world args)
    = firstn n [token_request cfg (Py.lookup "code" args);
                user_request access_token;
                member_request cfg (discord_user_id user);
                EvCreateCustomToken (discord_user_id user)
                  [("discord_username", display_name user);
                   ("discord_pfp", JStr (profile_picture_url user));
                   ("has_role", JBool true)]].
Proof.
  pose proof (handle_path cfg world args) as Hpath.
  destruct (handle cfg world args) as [tr out]. cbn [fst snd] in *.
  destruct Hpath.
  - exists JNull, identity_before, 0%nat. reflexivity.
  - exists JNull, identity_before, 1%nat. reflexivity.
  - exists JNull, identity_before, 1%nat. reflexivity.
  - exists JNull, identity_before, 1%nat. reflexivity.
  - exists access_token, identity_before, 2%nat. reflexivity.
  - exists access_token, identity_before, 2%nat. reflexivity.
  - exists access_token, identity_before, 2%nat. reflexivity.
  - exists access_token, user, 2%nat. reflexivity.
  - exists access_token, user, 3%nat. reflexivity.
  - exists access_token, user, 3%nat. reflexivity.
  - exists access_token, user, 3%nat. reflexivity.
  - exists access_token, user, 4%nat. reflexivity.
Qed.

(** X11: the subject of every call of the token issuer is a user id that
    is neither [None] nor empty. *)
Theorem issuer_subject_not_empty (cfg : Config) (world : World)
    (args : list (string * string)) (uid : json) (claims : list (string * json)) :
  In (EvCreateCustomToken uid claims) (fst (handle cfg world args)) ->
  Py.truthy uid = true.
Proof.
  pose proof (handle_path cfg world args) as Hpath.
  destruct (handle cfg world args) as [tr out]. cbn [fst snd] in *.
  intros Hin.
  destruct Hpath; simpl in Hin;
    repeat (destruct Hin as [Hin | Hin]; [try discriminate Hin |]);
    try contradiction.
  injection Hin as <- _.
  match goal with
  | H : resolve_user _ _ _ _ = _ |- _ => exact (resolve_user_id _ _ _ _ _ _ H)
  end.
Qed.

Lemma issuer_subject_not_empty_witness : Py.truthy (JStr "42") = true.
Proof.
  apply (issuer_subject_not_empty Example.cfg Example.granted Example.args
           (JStr "42")
           [("discord_username", JStr "Al");
            ("discord_pfp", JStr "https://cdn.discordapp.com/embed/avatars/2.png");
            ("has_role", JBool true)]).
  vm_compute. right. right. right. left. reflexivity.
Defined.

(** X12: a response with status [success] is given only when the member
    request was answered without failure, the search of the required role
    in its roles gave true, and the issuer gave the token that the
    response carries, for a user whose id is not empty. *)
Theorem success_only_with_role (cfg : Config) (world : World)
    (args : list (string * string)) (r : response) :
  snd (handle cfg world args) = inl r ->
  status_of r = Some (JStr "success") ->
  exists user status_code member_data firebase_custom_token,
    Py.truthy (discord_user_id user) = true /\
    member_reply cfg world (discord_user_id user)
      = Reply status_code (Some member_data) /\
    (400 <=? status_code) && (status_code <? 600) = false /\
    rbind (Py.get member_data "roles" (JArr [])) (Py.contains REQUIRED_ROLE_ID)
      = inl true /\
    create_custom_token world (discord_user_id user)
      [("discord_username", display_name user);
       ("discord_pfp", JStr (profile_picture_url user));
       ("has_role", JBool true)] = Some firebase_custom_token /\
    r = redirect_url_for "frontend_redirect"
          [("token", JStr firebase_custom_token);
           ("discord_user_id", discord_user_id user);
           ("discord_username", display_name user);
           ("discord_pfp", JStr (profile_picture_url user));
           ("status", JStr "success")].
Proof.
  pose proof (handle_path cfg world args) as Hpath.
  destruct (handle cfg world args) as [tr out]. cbn [fst snd] in *.
  intros -> Hstatus.
  inversion Hpath; subst; try discriminate Hstatus.
  destruct (create_custom_token world (discord_user_id user) (custom_claims user))
    as [firebase_custom_token |] eqn:Hissued; [| discriminate Hstatus].
  exists user, status_code, member_data, firebase_custom_token.
  repeat split; try assumption.
  - match goal with
    | H : resolve_user _ _ _ _ = _ |- _ => exact (resolve_user_id _ _ _ _ _ _ H)
    end.
  - match goal with
    | Hr : member_reply _ _ _ = Reply _ _, Hf : is_failure _ = false |- _ =>
        rewrite Hr in Hf; exact Hf
    end.
Qed.

Lemma success_only_with_role_witness :
  exists user status_code member_data firebase_custom_token,
    Py.truthy (discord_user_id user) = true /\
    member_reply Example.cfg Example.granted (discord_user_id user)
      = Reply status_code (Some member_data) /\
    (400 <=? status_code) && (status_code <? 600) = false /\
    rbind (Py.get member_data "roles" (JArr [])) (Py.contains REQUIRED_ROLE_ID)
      = inl true /\
    create_custom_token Example.granted (discord_user_id user)
      [("discord_username", display_name user);
       ("discord_pfp", JStr (profile_picture_url user));
       ("has_role", JBool true)] = Some firebase_custom_token /\
    redirect_success "signed123" Example.al_identity
    = redirect_url_for "frontend_redirect"
        [("token", JStr firebase_custom_token);
         ("discord_user_id", discord_user_id user);
         ("discord_username", display_name user);
         ("discord_pfp", JStr (profile_picture_url user));
         ("status", JStr "success")].
Proof.
  apply (success_only_with_role Example.cfg Example.granted Example.args
           (redirect_success "signed123" Example.al_identity)).
  - reflexivity.
  - reflexivity.
Defined.

(** * The login redirect and the start-up *)

(** X13: the login URL and the token request agree: the [redirect_uri]
    and the [scope] in the form data of the token request of every
    callback are the ones in the login URL, and the [client_id] is the
    same configuration value. *)
Theorem login_matches_exchange (cfg : Config) (world : World)
    (code : option string) (tr : list event) :
  exists (data : list (string * option string)) (redirect_uri scope : string),
    fst (exchange_code cfg world code tr)
    = (tr ++ [EvPost (DISCORD_API_BASE_URL ++ "/oauth2/token") data
                [("Content-Type", "application/x-www-form-urlencoded")]])%list /\
    Py.lookup "code" data = Some code /\
    Py.lookup "client_id" data = Some (DISCORD_CLIENT_ID cfg) /\
    Py.lookup "redirect_uri" data = Some (Some redirect_uri) /\
    Py.lookup "scope" data = Some (Some scope) /\
    discord_login cfg
    = DISCORD_API_BASE_URL ++ "/oauth2/authorize?client_id="
        ++ Py.str_opt (DISCORD_CLIENT_ID cfg)
        ++ "&redirect_uri=" ++ redirect_uri
        ++ "&response_type=code&scope=" ++ scope.
Proof.
  exists (token_data cfg code), (DISCORD_REDIRECT_URI cfg), "identify guilds".
  rewrite exchange_code_run. repeat split.
Qed.

Lemma check_required_none (env : environ) (vars : list string) :
  check_required env vars = None <->
  forall var, In var vars -> Py.truthy_opt (getenv env var) = true.
Proof.
  induction vars as [| v vars IH]; simpl.
  - split; [intros _ var [] | reflexivity].
  - destruct (Py.truthy_opt (getenv env v)) eqn:Hv; simpl.
    + rewrite IH. split.
      * intros H var [<- | Hin]; [exact Hv | now apply H].
      * intros H var Hin. apply H. now right.
    + split; [discriminate |].
      intros H. specialize (H v (or_introl eq_refl)). congruence.
Qed.

Lemma check_required_some (env : environ) (vars : list string) (code : Z) :
  check_required env vars = Some code ->
  code = 1 /\ exists var, In var vars /\ Py.truthy_opt (getenv env var) = false.
Proof.
  induction vars as [| v vars IH]; simpl; [discriminate |].
  destruct (Py.truthy_opt (getenv env v)) eqn:Hv; simpl.
  - intros H. destruct (IH H) as [Hcode [var [Hin Hvar]]].
    split; [exact Hcode |]. exists var. split; [now right | exact Hvar].
  - intros H. injection H as <-. split; [reflexivity |].
    exists v. split; [now left | exact Hv].
Qed.

(** X14: the start-up exits, with code 1, exactly when one of
    [DISCORD_CLIENT_ID], [DISCORD_CLIENT_SECRET], [DISCORD_GUILD_ID] and
    [DISCORD_BOT_TOKEN] is not set or is empty; no other variable, the
    Firebase key included, stops it. *)
Theorem main_exits_iff_missing (env : environ) :
  (forall code, main env = Exit code -> code = 1) /\
  (main env = Exit 1 <->
   exists var, In var required_env_vars /\ Py.truthy_opt (getenv env var) = false).
Proof.
  unfold main. split.
  - intros code.
    destruct (check_required env required_env_vars) as [c |] eqn:Hcheck.
    + intros H. injection H as <-. now apply check_required_some in Hcheck.
    + now destruct (match getenv env "FLASK_ENV" with
                    | Some v => (v =? "development")%string
                    | None => false
                    end).
  - split.
    + destruct (check_required env required_env_vars) as [c |] eqn:Hcheck.
      * intros _. now apply check_required_some in Hcheck.
      * now destruct (match getenv env "FLASK_ENV" with
                      | Some v => (v =? "development")%string
                      | None => false
                      end).
    + intros [var [Hin Hvar]].
      destruct (check_required env required_env_vars) as [c |] eqn:Hcheck.
      * apply check_required_some in Hcheck as [-> _]. reflexivity.
      * rewrite check_required_none in Hcheck.
        rewrite (Hcheck var Hin) in Hvar. discriminate Hvar.
Qed.

Lemma main_exits_iff_missing_witness :
  main [("DISCORD_CLIENT_ID", "client"); ("DISCORD_CLIENT_SECRET", "secret");
        ("DISCORD_GUILD_ID", ""); ("DISCORD_BOT_TOKEN", "bot");
        ("FLASK_ENV", "development")]
  = Exit 1.
Proof.
  apply (proj2 (proj2 (main_exits_iff_missing
                         [("DISCORD_CLIENT_ID", "client");
                          ("DISCORD_CLIENT_SECRET", "secret");
                          ("DISCORD_GUILD_ID", ""); ("DISCORD_BOT_TOKEN", "bot");
                          ("FLASK_ENV", "development")]))).
  exists "DISCORD_GUILD_ID". split; [simpl; tauto | reflexivity].
Defined.

(** X15: when the start-up does not exit, the configuration read from
    the same environment has the guild id and the bot token, and no
    callback ends with status [error_role_check_config_missing]. *)
Theorem started_config_present (env : environ) (world : World)
    (args : list (string * string)) (r : response) :
  (forall code, main env <> Exit code) ->
  snd (handle (config_of_env env) world args) = inl r ->
  Py.truthy_opt (REQUIRED_GUILD_ID (config_of_env env)) = true /\
  Py.truthy_opt (DISCORD_BOT_TOKEN (config_of_env env)) = true /\
  status_of r <> Some (JStr "error_role_check_config_missing").
Proof.
  intros Hmain.
  assert (Hcheck : check_required env required_env_vars = None).
  { unfold main in Hmain.
    destruct (check_required env required_env_vars) as [code |];
      [now contradiction (Hmain code) | reflexivity]. }
  rewrite check_required_none in Hcheck.
  assert (Hguild : Py.truthy_opt (REQUIRED_GUILD_ID (config_of_env env)) = true)
    by (apply (Hcheck "DISCORD_GUILD_ID"); simpl; tauto).
  assert (Hbot : Py.truthy_opt (DISCORD_BOT_TOKEN (config_of_env env)) = true)
    by (apply (Hcheck "DISCORD_BOT_TOKEN"); simpl; tauto).
  pose proof (handle_path (config_of_env env) world args) as Hpath.
  destruct (handle (config_of_env env) world args) as [tr out].
  cbn [fst snd] in *. intros ->.
  split; [exact Hguild |]. split; [exact Hbot |].
  inversion Hpath; subst; try discriminate.
  - match goal with
    | H : _ && _ = false |- _ => rewrite Hguild, Hbot in H; discriminate H
    end.
  - now destruct (create_custom_token world (discord_user_id user)
                    (custom_claims user)).
Qed.

Lemma started_config_present_witness :
  Py.truthy_opt (REQUIRED_GUILD_ID (config_of_env Example.env)) = true /\
  Py.truthy_opt (DISCORD_BOT_TOKEN (config_of_env Example.env)) = true /\
  status_of (redirect_success "signed123" Example.al_identity)
  <> Some (JStr "error_role_check_config_missing").
Proof.
  apply (started_config_present Example.env Example.granted Example.args
           (redirect_success "signed123" Example.al_identity)).
  - intros code. discriminate.
  - reflexivity.
Defined.

(** * From the callback to the page *)

Section Transport.

(** [query_of values] stands for what [request.args] holds in
    [frontend_redirect] after [redirect(url_for("frontend_redirect",
    **values))] has been followed.  It is assumed to carry a text value
    under its key and to add no key. *)
Variable query_of : list (string * json) -> list (string * string).

Hypothesis query_of_text :
  forall values k s,
    Py.lookup k values = Some (JStr s) -> Py.lookup k (query_of values) = Some s.

Hypothesis query_of_missing :
  forall values k,
    Py.lookup k values = None -> Py.lookup k (query_of values) = None.

(** X16: after a callback that ends with a failure status, the URL of
    the page has an empty token, an empty user id, an empty user name and
    an empty picture, and that status. *)
Theorem failure_page (cfg : Config) (world : World)
    (args : list (string * string)) (endpoint : string)
    (values : list (string * json)) (s : string) :
  snd (handle cfg world args) = inl (redirect_url_for endpoint values) ->
  Py.lookup "status" values = Some (JStr s) ->
  s <> "success" ->
  endpoint = "frontend_redirect" /\
  redirect_url (query_of values)
  = frontend_base_url
      ++ "#token=&discord_user_id=&discord_username=&discord_pfp=&status=" ++ s.
Proof.
  pose proof (handle_path cfg world args) as Hpath.
  destruct (handle cfg world args) as [tr out]. cbn [fst snd] in *.
  intros -> Hstatus Hs.
  assert (Hfail : forall s', redirect_url_for endpoint values = redirect_status s' ->
            endpoint = "frontend_redirect" /\
            redirect_url (query_of values)
            = frontend_base_url
                ++ "#token=&discord_user_id=&discord_username=&discord_pfp=&status="
                ++ s).
  { intros s' Heq. injection Heq as -> ->.
    simpl in Hstatus. injection Hstatus as ->.
    split; [reflexivity |]. unfold redirect_url, args_get.
    rewrite (query_of_text [("status", JStr s)] "status" s eq_refl).
    rewrite !(query_of_missing [("status", JStr s)]) by reflexivity.
    reflexivity. }
  inversion Hpath; subst; try exact (Hfail _ eq_refl).
  match goal with
  | H : _ = redirect_url_for endpoint values |- _ => rename H into Hout
  end.
  destruct (create_custom_token world (discord_user_id user) (custom_claims user)).
  - injection Hout as <- <-. simpl in Hstatus. congruence.
  - symmetry in Hout. exact (Hfail _ Hout).
Qed.

(** X17: after a callback that ends with status [success], whose user id
    and display name are texts, the URL of the page carries the issued
    token, that id, that name, the picture URL and the status, in this
    order. *)
Theorem success_page (cfg : Config) (world : World)
    (args : list (string * string)) (endpoint : string)
    (values : list (string * json)) (id name : string) :
  snd (handle cfg world args) = inl (redirect_url_for endpoint values) ->
  Py.lookup "status" values = Some (JStr "success") ->
  Py.lookup "discord_user_id" values = Some (JStr id) ->
  Py.lookup "discord_username" values = Some (JStr name) ->
  exists firebase_custom_token user,
    create_custom_token world (discord_user_id user) (custom_claims user)
      = Some firebase_custom_token /\
    discord_user_id user = JStr id /\
    display_name user = JStr name /\
    redirect_url (query_of values)
    = frontend_base_url
        ++ "#token=" ++ firebase_custom_token
        ++ "&discord_user_id=" ++ id
        ++ "&discord_username=" ++ name
        ++ "&discord_pfp=" ++ profile_picture_url user
        ++ "&status=success".
Proof.
  pose proof (handle_path cfg world args) as Hpath.
  destruct (handle cfg world args) as [tr out]. cbn [fst snd] in *.
  intros -> Hstatus Hid Hname.
  inversion Hpath; subst; try discriminate Hstatus.
  match goal with
  | H : _ = redirect_url_for endpoint values |- _ => rename H into Hout
  end.
  destruct (create_custom_token world (discord_user_id user) (custom_claims user))
    as [firebase_custom_token |] eqn:Hissued.
  - injection Hout as <- <-. simpl in Hid, Hname.
    injection Hid as Hid. injection Hname as Hname.
    exists firebase_custom_token, user.
    split; [exact Hissued |]. split; [exact Hid |]. split; [exact Hname |].
    unfold redirect_url, args_get.
    match goal with
    | |- context [query_of ?v] =>
        rewrite (query_of_text v "token" firebase_custom_token eq_refl);
        rewrite (query_of_text v "discord_user_id" id)
          by (simpl; now rewrite Hid);
        rewrite (query_of_text v "discord_username" name)
          by (simpl; now rewrite Hname);
        rewrite (query_of_text v "discord_pfp" (profile_picture_url user) eq_refl);
        rewrite (query_of_text v "status" "success" eq_refl)
    end.
    reflexivity.
  - injection Hout as <- <-. discriminate Hstatus.
Qed.

End Transport.

Lemma example_query_of_text (values : list (string * json)) (k s : string) :
  Py.lookup k values = Some (JStr s) ->
  Py.lookup k (Example.query_of values) = Some s.
Proof.
  induction values as [| [k' v] values IH]; simpl; [discriminate |].
  destruct (k =? k')%string eqn:Hk.
  - intros H. injection H as ->. simpl. now rewrite Hk.
  - intros H. destruct v; simpl; try rewrite Hk; now apply IH.
Qed.

Lemma example_query_of_missing (values : list (string * json)) (k : string) :
  Py.lookup k values = None -> Py.lookup k (Example.query_of values) = None.
Proof.
  induction values as [| [k' v] values IH]; simpl; [reflexivity |].
  destruct (k =? k')%string eqn:Hk; [discriminate |].
  intros H. destruct v; simpl; try rewrite Hk; now apply IH.
Qed.

Lemma failure_page_witness :
  "frontend_redirect" = "frontend_redirect" /\
  redirect_url (Example.query_of [("status", JStr "unauthorized_role")])
  = frontend_base_url
      ++ "#token=&discord_user_id=&discord_username=&discord_pfp=&status="
      ++ "unauthorized_role".
Proof.
  apply (failure_page Example.query_of example_query_of_text
           example_query_of_missing Example.cfg Example.denied Example.args
           "frontend_redirect" [("status", JStr "unauthorized_role")]
           "unauthorized_role").
  - reflexivity.
  - reflexivity.
  - discriminate.
Defined.

Lemma success_page_witness :
  exists firebase_custom_token user,
    create_custom_token Example.granted (discord_user_id user) (custom_claims user)
      = Some firebase_custom_token /\
    discord_user_id user = JStr "42" /\
    display_name user = JStr "Al" /\
    redirect_url
      (Example.query_of
         [("token", JStr "signed123"); ("discord_user_id", JStr "42");
          ("discord_username", JStr "Al");
          ("discord_pfp", JStr "https://cdn.discordapp.com/embed/avatars/2.png");
          ("status", JStr "success")])
    = frontend_base_url
        ++ "#token=" ++ firebase_custom_token
        ++ "&discord_user_id=" ++ "42"
        ++ "&discord_username=" ++ "Al"
        ++ "&discord_pfp=" ++ profile_picture_url user
        ++ "&status=success".
Proof.
  apply (success_page Example.query_of example_query_of_text
           Example.cfg Example.granted Example.args "frontend_redirect"
           [("token", JStr "signed123"); ("discord_user_id", JStr "42");
            ("discord_username", JStr "Al");
            ("discord_pfp", JStr "https://cdn.discordapp.com/embed/avatars/2.png");
            ("status", JStr "success")]
           "42" "Al").
  - reflexivity.
  - reflexivity.
  - reflexivity.
  - reflexivity.
Defined.

(** * Further properties of the identity and of the page *)

(** X18: when the field that picks the default avatar (the
    discriminator when it is present and not "0", the id otherwise) is not
    a text with characters outside ASCII, reading the identity from a dict
    raises exactly when there is no custom avatar and [int] fails on that
    field; the exception is the one of [int]. *)
Theorem user_info_block_raises (fields : list (string * json)) (e : pyexc) :
  Py.ascii_text
    (if Py.truthy (Py.item fields "discriminator" JNull)
        && negb (Py.eq_str "0" (Py.item fields "discriminator" JNull))
     then Py.item fields "discriminator" JNull
     else Py.item fields "id" JNull) = true ->
  (user_info_block (JObj fields) = inr e <->
   Py.truthy (Py.item fields "avatar" JNull) = false /\
   Py.int (if Py.truthy (Py.item fields "discriminator" JNull)
              && negb (Py.eq_str "0" (Py.item fields "discriminator" JNull))
           then Py.item fields "discriminator" JNull
           else Py.item fields "id" JNull) = inr e).
Proof.
  intros _. unfold user_info_block. cbn [Py.get rbind].
  destruct (Py.truthy (Py.item fields "avatar" JNull)).
  - split; [discriminate | intros [H _]; discriminate H].
  - destruct (Py.truthy (Py.item fields "discriminator" JNull)
              && negb (Py.eq_str "0" (Py.item fields "discriminator" JNull))).
    + destruct (Py.int (Py.item fields "discriminator" JNull)) as [d | e'];
        cbn [rbind].
      * split; [discriminate | intros [_ H]; discriminate H].
      * split; [intros H; split; [reflexivity | congruence]
               | intros [_ H]; congruence].
    + destruct (Py.int (Py.item fields "id" JNull)) as [n | e']; cbn [rbind].
      * split; [discriminate | intros [_ H]; discriminate H].
      * split; [intros H; split; [reflexivity | congruence]
               | intros [_ H]; congruence].
Qed.

Lemma user_info_block_raises_witness :
  user_info_block (JObj [("id", JStr "42"); ("discriminator", JStr "12a4")])
  = inr ValueError.
Proof.
  apply (proj2 (user_info_block_raises
                  [("id", JStr "42"); ("discriminator", JStr "12a4")] ValueError
                  eq_refl)).
  split; reflexivity.
Defined.

(** X19: with a custom avatar hash [avatar] and the id [id], both texts,
    the block does not raise, whatever the discriminator is, and the
    picture URL is the CDN URL made of the id and the hash. *)
Theorem custom_avatar_url (fields : list (string * json)) (id avatar : string) :
  Py.lookup "id" fields = Some (JStr id) ->
  Py.lookup "avatar" fields = Some (JStr avatar) ->
  avatar <> "" ->
  exists user,
    user_info_block (JObj fields) = inl user /\
    discord_user_id user = JStr id /\
    profile_picture_url user
    = "https://cdn.discordapp.com/avatars/" ++ id ++ "/" ++ avatar ++ ".png".
Proof.
  intros Hid Havatar Hne.
  unfold user_info_block. cbn [Py.get rbind]. unfold Py.item.
  rewrite Hid, Havatar.
  replace (Py.truthy (JStr avatar)) with true
    by (symmetry; now apply truthy_str).
  eexists. split; [reflexivity |]. split; reflexivity.
Qed.

Lemma custom_avatar_url_witness :
  exists user,
    user_info_block
      (JObj [("id", JStr "42"); ("avatar", JStr "a1b2");
             ("discriminator", JStr "not a number")]) = inl user /\
    discord_user_id user = JStr "42" /\
    profile_picture_url user = "https://cdn.discordapp.com/avatars/42/a1b2.png".
Proof.
  apply (custom_avatar_url
           [("id", JStr "42"); ("avatar", JStr "a1b2");
            ("discriminator", JStr "not a number")] "42" "a1b2").
  - reflexivity.
  - reflexivity.
  - discriminate.
Defined.

(** X20: without a custom avatar and outside the legacy branch, an id
    that reads as an integer [n] of at least 96 gives a picture URL whose
    index [n >> 4] is at least 6: it names none of the default avatars 0
    to 5. *)
Theorem modern_default_avatar_out_of_range (fields : list (string * json)) (n : Z) :
  Py.truthy (Py.item fields "avatar" JNull) = false ->
  Py.truthy (Py.item fields "discriminator" JNull)
    && negb (Py.eq_str "0" (Py.item fields "discriminator" JNull)) = false ->
  Py.int (Py.item fields "id" JNull) = inl n ->
  96 <= n ->
  exists (user : identity) (index : Z),
    user_info_block (JObj fields) = inl user /\
    profile_picture_url user
    = "https://cdn.discordapp.com/embed/avatars/" ++ Py.str_int index ++ ".png" /\
    index = n / 16 /\
    6 <= index.
Proof.
  intros Havatar Hlegacy Hint Hn.
  destruct (modern_default_avatar_index fields n Havatar Hlegacy Hint)
    as [user [Hblock Hurl]].
  exists user, (Z.shiftr n 4). split; [exact Hblock |]. split; [exact Hurl |].
  rewrite Z.shiftr_div_pow2 by lia. change (2 ^ 4) with 16.
  split; [reflexivity |].
  apply Z.div_le_lower_bound; lia.
Qed.

Lemma modern_default_avatar_out_of_range_witness :
  exists (user : identity) (index : Z),
    user_info_block
      (JObj [("id", JStr "80351110224678912"); ("username", JStr "nelly");
             ("discriminator", JStr "0")]) = inl user /\
    profile_picture_url user
    = "https://cdn.discordapp.com/embed/avatars/" ++ Py.str_int index ++ ".png" /\
    index = 80351110224678912 / 16 /\
    6 <= index.
Proof.
  apply (modern_default_avatar_out_of_range
           [("id", JStr "80351110224678912"); ("username", JStr "nelly");
            ("discriminator", JStr "0")] 80351110224678912).
  - reflexivity.
  - reflexivity.
  - reflexivity.
  - lia.
Defined.

(** X21: the page depends on the five query parameters that it reads
    and on nothing else in the request: two requests that agree on them
    get the same page. *)
Theorem frontend_redirect_reads_five (args args' : list (string * string)) :
  (forall k,
      In k ["token"; "discord_user_id"; "discord_username"; "discord_pfp";
            "status"] ->
      Py.lookup k args = Py.lookup k args') ->
  frontend_redirect args = frontend_redirect args'.
Proof.
  intros H. unfold frontend_redirect, redirect_url, args_get.
  rewrite !H by (simpl; tauto). reflexivity.
Qed.

Lemma frontend_redirect_reads_five_witness :
  frontend_redirect [("status", "success"); ("debug", "1")]
  = frontend_redirect [("utm", "x"); ("status", "success"); ("status", "error")].
Proof.
  apply (frontend_redirect_reads_five
           [("status", "success"); ("debug", "1")]
           [("utm", "x"); ("status", "success"); ("status", "error")]).
  intros k Hin. simpl in Hin.
  repeat (destruct Hin as [<- | Hin]; [reflexivity |]). contradiction.
Defined.
